(** * SenseBridge: device-orchestration layer

    A shallow embedding of the hardware detector
    ([src/utils/hardware_detection.py]), the wearable session
    ([src/hardware/wearable.py], [src/mock/bluetooth.py]), the speech
    capture loop ([src/speech/speech_to_text.py]), the simulator window
    ([src/simulator/simulator_ui.py]) and the application object
    ([src/main.py]), followed by the properties established for them.

    Python objects become records, attribute assignment becomes explicit
    state passing, and [try]/[except] becomes a handler in a state-and-
    exception monad in which the state written before a [raise] is kept,
    as it is in Python.  Everything the code obtains from outside the
    repository (the Bluetooth stack, PyAudio, the recognizer, [json],
    collaborators whose source is elsewhere) is an explicit oracle. *)

From Stdlib Require Import List String Ascii Bool Arith ZArith Lia.
Import ListNotations.
Local Open Scope string_scope.
Set Warnings "-register-all".

(* ===================================================================== *)
(** * Part I: the program *)
(* ===================================================================== *)

(** ** Python runtime fragment *)

Module Py.

(** The exception classes that the modelled code can meet.  All of them
    derive from [Exception]; only [ImportError] is ever caught by name. *)
Inductive exn : Type :=
| ImportError
| AttributeError
| TypeError
| AssertionError
| OSError
| PermissionError
| UnicodeDecodeError
| RuntimeError
| BluetoothError
| TclError.

Definition is_ImportError (e : exn) : bool :=
  match e with ImportError => true | _ => false end.

Inductive result (A : Type) : Type :=
| Ok (a : A)
| Raise (e : exn).
Arguments Ok {A} a.
Arguments Raise {A} e.

Definition returns {A} (r : result A) : bool :=
  match r with Ok _ => true | Raise _ => false end.

(** A computation over a mutable object of type [S]. *)
Definition M (S A : Type) : Type := S -> result A * S.

Definition ret {S A} (a : A) : M S A := fun s => (Ok a, s).

Definition raise {S A} (e : exn) : M S A := fun s => (Raise e, s).

Definition bind {S A B} (m : M S A) (k : A -> M S B) : M S B :=
  fun s => match m s with
           | (Ok a, s') => k a s'
           | (Raise e, s') => (Raise e, s')
           end.

Definition get {S} : M S S := fun s => (Ok s, s).

Definition modify {S} (f : S -> S) : M S unit := fun s => (Ok tt, f s).

Definition lift {S A} (r : result A) : M S A := fun s => (r, s).

(** [try: body  except Exception as e: handler e] (also the bare
    [except:]), every modelled exception being an [Exception]. *)
Definition try_except {S A} (body : M S A) (handler : exn -> M S A) : M S A :=
  fun s => match body s with
           | (Ok a, s') => (Ok a, s')
           | (Raise e, s') => handler e s'
           end.

(** [try: body  except ImportError: handler]. *)
Definition try_except_ImportError {S A} (body : M S A) (handler : M S A)
  : M S A :=
  fun s => match body s with
           | (Ok a, s') => (Ok a, s')
           | (Raise e, s') =>
               if is_ImportError e then handler s' else (Raise e, s')
           end.

Definition when {S} (b : bool) (m : M S unit) : M S unit :=
  if b then m else ret tt.

(** [keeps f m]: running [m] leaves the observation [f] of the object as
    it was, whether [m] returns or raises. *)
Definition keeps {S X A} (f : S -> X) (m : M S A) : Prop :=
  forall s, f (snd (m s)) = f s.

(** [safe m]: [m] never raises. *)
Definition safe {S A} (m : M S A) : Prop :=
  forall s, returns (fst (m s)) = true.

(** The values a caller can pass as command parameters.  [PObject]
    stands for any other object, carrying its truth value. *)
Inductive pyval : Type :=
| PNone
| PBool (b : bool)
| PInt (z : Z)
| PStr (s : string)
| PList (l : list pyval)
| PDict (items : list (string * pyval))
| PObject (truth : bool).

Definition truthy (v : pyval) : bool :=
  match v with
  | PNone => false
  | PBool b => b
  | PInt z => negb (z =? 0)%Z
  | PStr s => negb (s =? "")
  | PList l => match l with [] => false | _ => true end
  | PDict items => match items with [] => false | _ => true end
  | PObject truth => truth
  end.

(** [a or b]. *)
Definition py_or (a b : pyval) : pyval := if truthy a then a else b.

Definition newline : string := String (ascii_of_nat 10) EmptyString.

Inductive level : Type := Debug | Info | Warning | Error.

End Py.

Import Py.

Declare Scope py_scope.
Delimit Scope py_scope with py.
Notation "x <- c1 ;; c2" := (bind c1 (fun x => c2))
  (at level 61, c1 at next level, right associativity) : py_scope.
Notation "c1 ;; c2" := (bind c1 (fun _ => c2))
  (at level 61, right associativity) : py_scope.
Local Open Scope py_scope.

(** ** [src/utils/hardware_detection.py] *)

Module HardwareDetection.

(** What the detector reads: the file system, the import machinery,
    PyAudio and the process environment.  [os.path.exists] reports
    [False] instead of raising; everything else can raise. *)
Record env : Type := {
  platform_system : string;                 (* platform.system() *)
  path_exists : string -> bool;             (* os.path.exists *)
  read_file : string -> result string;      (* open(p) ... f.read() *)
  import_RPi_GPIO : result unit;            (* import RPi.GPIO *)
  find_spec_mock_gpio : result bool;        (* find_spec(..) is not None *)
  import_pyaudio : result unit;             (* import pyaudio *)
  pyaudio_PyAudio : result unit;            (* pyaudio.PyAudio() *)
  get_device_count : result Z;              (* p.get_device_count() *)
  pyaudio_terminate : result unit;          (* p.terminate() *)
  import_bluetooth : result unit;           (* import bluetooth *)
  import_mock_bluetooth : result unit;      (* from ..mock import bluetooth *)
  environ : string -> option string         (* os.environ *)
}.

Record HardwareDetector : Type := {
  platform : string;
  is_raspberry_pi : bool;
  has_gpio : bool;
  has_audio : bool;
  has_bluetooth : bool;
  has_display : bool
}.

(** [needle in haystack]. *)
Definition contains (needle haystack : string) : bool :=
  match String.index 0 needle haystack with
  | Some _ => true
  | None => false
  end.

Definition rbind {A B} (r : result A) (k : A -> result B) : result B :=
  match r with Ok a => k a | Raise e => Raise e end.

Definition _detect_raspberry_pi (E : env) : result bool :=
  rbind
    (if path_exists E "/proc/device-tree/model" then
       rbind (read_file E "/proc/device-tree/model")
             (fun model => Ok (contains "Raspberry Pi" model))
     else Ok false)
    (fun found =>
       if found then Ok true
       else if path_exists E "/etc/rpi-issue" then Ok true
       else Ok false).

Definition _check_gpio (E : env) : result bool :=
  match import_RPi_GPIO E with
  | Ok _ => Ok true
  | Raise e =>
      if is_ImportError e then
        (* the inner try returns False when the mock is found and
           swallows anything find_spec raises; both ways end in False *)
        match find_spec_mock_gpio E with
        | Ok true => Ok false
        | Ok false => Ok false
        | Raise _ => Ok false
        end
      else Raise e
  end.

Definition _check_audio (E : env) : result bool :=
  match
    rbind (import_pyaudio E) (fun _ =>
    rbind (pyaudio_PyAudio E) (fun _ =>
    rbind (get_device_count E) (fun input_device_count =>
    rbind (pyaudio_terminate E) (fun _ =>
    Ok (0 <? input_device_count)%Z))))
  with
  | Ok b => Ok b
  | Raise _ => Ok false
  end.

Definition _check_bluetooth (E : env) : result bool :=
  match import_bluetooth E with
  | Ok _ => Ok true
  | Raise e => if is_ImportError e then Ok false else Raise e
  end.

Definition _check_display (E : env) (is_raspberry_pi : bool) : result bool :=
  match environ E "DISPLAY" with
  | Some v => if negb (v =? "") then Ok true
              else if is_raspberry_pi then Ok (path_exists E "/dev/fb0")
              else Ok false
  | None => if is_raspberry_pi then Ok (path_exists E "/dev/fb0")
            else Ok false
  end.

(** [HardwareDetector.__init__]: the probes run in this order and the
    first one that raises ends the construction. *)
Definition __init__ (E : env) : result HardwareDetector :=
  rbind (_detect_raspberry_pi E) (fun pi =>
  rbind (_check_gpio E) (fun gpio =>
  rbind (_check_audio E) (fun audio =>
  rbind (_check_bluetooth E) (fun bt =>
  rbind (_check_display E pi) (fun display =>
  Ok {| platform := platform_system E;
        is_raspberry_pi := pi;
        has_gpio := gpio;
        has_audio := audio;
        has_bluetooth := bt;
        has_display := display |}))))).

End HardwareDetection.

(** ** [src/mock/bluetooth.py] and [src/hardware/wearable.py] *)

Module Wearable.

(** The module-level name [bluetooth] after the import cascade at the top
    of [wearable.py]: the real stack, else the repository's mock, else
    [None]. *)
Inductive bt_module : Type := RealBluetooth | MockBluetooth.


Definition handle : Type := nat.

(** Everything the session does to the outside world, in program order. *)
Inductive event : Type :=
| Log (lvl : level) (msg : string)
| SocketNew (h : handle)                       (* BluetoothSocket(RFCOMM) *)
| SocketConnect (h : handle) (mac : string) (channel : Z)
| SocketSetTimeout (h : handle) (seconds : Z)
| SocketSend (h : handle) (data : string)
| SocketRecv (h : handle) (size : Z)
| SocketClose (h : handle)
| ThreadStart                                  (* connection_thread.start() *)
| ThreadJoin                                   (* join(timeout=2.0) *)
| Sleep (seconds : Z).

(** The world around one session.  [fails t] tells whether the operation
    issued when [t] events have already happened raises; [json_dumps] is
    the standard library's serializer. *)
Record env : Type := {
  bluetooth : option bt_module;
  fails : nat -> bool;
  json_dumps : pyval -> result string
}.

Record WearableDevice : Type := {
  wearable_mac : string;
  connected : bool;
  socket : option handle;
  connection_thread : bool;     (* a Thread object has been assigned *)
  running : bool;
  io : list event               (* oldest first *)
}.

Definition set_connected (b : bool) (s : WearableDevice) : WearableDevice :=
  {| wearable_mac := wearable_mac s; connected := b; socket := socket s;
     connection_thread := connection_thread s; running := running s;
     io := io s |}.

Definition set_socket (h : option handle) (s : WearableDevice) : WearableDevice :=
  {| wearable_mac := wearable_mac s; connected := connected s; socket := h;
     connection_thread := connection_thread s; running := running s;
     io := io s |}.

Definition set_connection_thread (b : bool) (s : WearableDevice) : WearableDevice :=
  {| wearable_mac := wearable_mac s; connected := connected s;
     socket := socket s; connection_thread := b; running := running s;
     io := io s |}.

Definition set_running (b : bool) (s : WearableDevice) : WearableDevice :=
  {| wearable_mac := wearable_mac s; connected := connected s;
     socket := socket s; connection_thread := connection_thread s;
     running := b; io := io s |}.

Definition emit (e : event) (s : WearableDevice) : WearableDevice :=
  {| wearable_mac := wearable_mac s; connected := connected s;
     socket := socket s; connection_thread := connection_thread s;
     running := running s; io := io s ++ [e] |}.

(** [WearableDevice.__init__]; [mac] is
    [bluetooth_config.get("wearable_mac", "")]. *)
Definition __init__ (mac : string) : WearableDevice :=
  {| wearable_mac := mac; connected := false; socket := None;
     connection_thread := false; running := false; io := [] |}.

Definition W : Type -> Type := M WearableDevice.

Definition log (lvl : level) (msg : string) : W unit :=
  modify (emit (Log lvl msg)).

Definition do_ (e : event) : W unit := modify (emit e).

(** An operation on a socket object.  The mock's methods only print and
    assign, so they never raise; any other socket answers as the oracle
    says. *)
Definition op_raises (E : env) (s : WearableDevice) : bool :=
  match bluetooth E with
  | Some MockBluetooth => false
  | _ => fails E (List.length (io s))
  end.

Definition sock_op (E : env) (e : event) : W unit :=
  fun s =>
    if op_raises E s then (Raise BluetoothError, emit e s)
    else (Ok tt, emit e s).

(** [bluetooth.BluetoothSocket(bluetooth.RFCOMM)]: an attribute of
    [None] does not exist. *)
Definition socket_new (E : env) : W handle :=
  fun s =>
    match bluetooth E with
    | None => (Raise AttributeError, s)
    | Some MockBluetooth => (Ok (List.length (io s)), emit (SocketNew (List.length (io s))) s)
    | Some RealBluetooth =>
        if fails E (List.length (io s))
        then (Raise BluetoothError, emit (SocketNew (List.length (io s))) s)
        else (Ok (List.length (io s)), emit (SocketNew (List.length (io s))) s)
    end.

Definition start (E : env) : W unit :=
  s <- get ;;
  if running s then
    log Warning "Wearable device manager already running"
  else
    match bluetooth E with
    | None =>
        log Warning "Bluetooth not available, running in simulation mode" ;;
        modify (set_running true)
    | Some _ =>
        modify (set_running true) ;;
        modify (set_connection_thread true) ;;
        do_ ThreadStart ;;
        log Info "Wearable device manager started"
    end.

Definition stop (E : env) : W unit :=
  s <- get ;;
  if negb (running s) then ret tt
  else
    modify (set_running false) ;;
    match socket s with
    | Some h =>
        try_except (sock_op E (SocketClose h)) (fun _ => ret tt) ;;
        modify (set_socket None)
    | None => ret tt
    end ;;
    when (connection_thread s) (do_ ThreadJoin) ;;
    log Info "Wearable device manager stopped".

Definition cmd_data (command : string) (params : pyval) : pyval :=
  PDict [("cmd", PStr command); ("params", py_or params (PDict []))].

Definition send_command (E : env) (command : string) (params : pyval) : W bool :=
  s <- get ;;
  match connected s, socket s with
  | true, Some h =>
      try_except
        (text <- lift (json_dumps E (cmd_data command params)) ;;
         sock_op E (SocketSend h (text ++ newline)) ;;
         ret true)
        (fun _ =>
           log Error "Error sending command to wearable" ;;
           modify (set_connected false) ;;
           ret false)
  | _, _ =>
      log Warning "Cannot send command - not connected to wearable" ;;
      ret false
  end.

Definition hello_msg : pyval :=
  PDict [("cmd", PStr "hello"); ("params", PDict [("name", PStr "SenseBridge")])].

Definition _connect (E : env) : W bool :=
  s <- get ;;
  if wearable_mac s =? "" then
    log Warning "No wearable MAC address configured" ;;
    ret false
  else
    try_except
      (log Info "Connecting to wearable" ;;
       h <- socket_new E ;;
       modify (set_socket (Some h)) ;;
       sock_op E (SocketConnect h (wearable_mac s) 1) ;;
       sock_op E (SocketSetTimeout h 5) ;;
       text <- lift (json_dumps E hello_msg) ;;
       sock_op E (SocketSend h (text ++ newline)) ;;
       try_except
         (sock_op E (SocketRecv h 1024) ;; log Info "Wearable response")
         (fun _ => ret tt) ;;
       modify (set_connected true) ;;
       log Info "Connected to wearable device" ;;
       ret true)
      (fun _ =>
         log Error "Error connecting to wearable" ;;
         s' <- get ;;
         match socket s' with
         | Some h =>
             try_except (sock_op E (SocketClose h)) (fun _ => ret tt) ;;
             modify (set_socket None)
         | None => ret tt
         end ;;
         modify (set_connected false) ;;
         ret false).

(** One turn of the [while self.running] body of [_connection_loop]. *)
Definition loop_body (E : env) : W unit :=
  try_except
    (s <- get ;;
     when (negb (connected s)) (_connect E ;; ret tt) ;;
     do_ (Sleep 5))
    (fun _ =>
       log Error "Error in wearable connection loop" ;;
       modify (set_connected false) ;;
       do_ (Sleep 10)).

(** [_connection_loop], run for at most [fuel] turns. *)
Fixpoint _connection_loop (E : env) (fuel : nat) : W unit :=
  match fuel with
  | O => ret tt
  | S fuel' =>
      s <- get ;;
      if running s then loop_body E ;; _connection_loop E fuel'
      else ret tt
  end.

(** What can happen to a session: a caller invokes a method, or the
    connection thread, once created, takes a turn of its loop.  A turn is
    allowed whenever a thread exists, which covers a thread that is still
    inside its body while [stop] and a second [start] run. *)
Inductive action : Type :=
| CallStart
| CallStop
| CallSendCommand (command : string) (params : pyval)
| LoopTurn.

Definition enabled (a : action) (s : WearableDevice) : bool :=
  match a with
  | LoopTurn => connection_thread s
  | _ => true
  end.

Definition step (E : env) (a : action) (s : WearableDevice) : WearableDevice :=
  match a with
  | CallStart => snd (start E s)
  | CallStop => snd (stop E s)
  | CallSendCommand command params => snd (send_command E command params s)
  | LoopTurn => snd (loop_body E s)
  end.

Inductive reachable (E : env) (mac : string) : WearableDevice -> Prop :=
| reachable_init : reachable E mac (__init__ mac)
| reachable_step s a :
    reachable E mac s -> enabled a s = true -> reachable E mac (step E a s).

Fixpoint run (E : env) (acts : list action) (s : WearableDevice) : WearableDevice :=
  match acts with
  | [] => s
  | a :: rest => run E rest (step E a s)
  end.

Definition is_SocketNew (e : event) : bool :=
  match e with SocketNew _ => true | _ => false end.

Definition sockets_constructed (s : WearableDevice) : nat :=
  List.length (filter is_SocketNew (io s)).

(** A session that has never had a transport: no socket object was ever
    asked for, none is held, and the connected flag is down. *)
Definition never_connected (s : WearableDevice) : Prop :=
  connected s = false /\ socket s = None /\ sockets_constructed s = 0.

End Wearable.

(** ** [src/speech/speech_to_text.py] *)

Module Speech.

Inductive target : Type := SimulationLoop | ListenLoop.

Inductive event : Type :=
| Log (lvl : level) (msg : string)
| ThreadStart (t : target)
| ThreadJoin                              (* join(timeout=2.0) *)
| MicOpen (device_index : option Z)       (* with sr.Microphone(..) as source *)
| AdjustForAmbientNoise (device_index : option Z)
| MicExit (device_index : option Z)       (* leaving the with block *)
| MicSourceClose (device_index : option Z) (* self.mic_source.close() *)
| Listen
| Recognize
| QueuePut (text : string)
| Callback (text : string)
| Sleep (milliseconds : Z).

(** What one listen-and-recognize attempt meets. *)
Inductive hearing : Type :=
| ListenRaises                 (* e.g. the listen timeout *)
| Recognized (text : string)
| UnknownValue                 (* sr.UnknownValueError *)
| RequestFailed                (* sr.RequestError *)
| RecognizeRaises.             (* any other exception *)

(** The world around one recognizer.  The three microphone oracles are
    indexed by device, each device being opened at most once per run of a
    loop; the others are indexed by the number of events so far.
    [running_at] is the value of [self.running] that the loop thread
    reads, which another thread's [stop] changes under it. *)
Record env : Type := {
  SR_AVAILABLE : bool;
  mic_opens : option Z -> bool;
  mic_calibrates : option Z -> bool;
  mic_exits : option Z -> bool;
  running_at : nat -> bool;
  hears : nat -> hearing;
  callback_raises : nat -> bool
}.

Record SpeechToText : Type := {
  enabled : bool;
  adjust_for_ambient_noise : bool;
  in_simulation : bool;
  sr_available : bool;
  available_mics : list string;
  mic_source : option (option Z);
  listen_thread : option target;
  running : bool;
  text_queue : list string;            (* oldest first *)
  callback : bool;                     (* a callback is set *)
  io : list event                      (* oldest first *)
}.

Definition set_running (b : bool) (s : SpeechToText) : SpeechToText :=
  {| enabled := enabled s; adjust_for_ambient_noise := adjust_for_ambient_noise s;
     in_simulation := in_simulation s; sr_available := sr_available s;
     available_mics := available_mics s; mic_source := mic_source s;
     listen_thread := listen_thread s; running := b;
     text_queue := text_queue s; callback := callback s; io := io s |}.

Definition set_listen_thread (t : option target) (s : SpeechToText) : SpeechToText :=
  {| enabled := enabled s; adjust_for_ambient_noise := adjust_for_ambient_noise s;
     in_simulation := in_simulation s; sr_available := sr_available s;
     available_mics := available_mics s; mic_source := mic_source s;
     listen_thread := t; running := running s;
     text_queue := text_queue s; callback := callback s; io := io s |}.

Definition set_mic_source (m : option (option Z)) (s : SpeechToText) : SpeechToText :=
  {| enabled := enabled s; adjust_for_ambient_noise := adjust_for_ambient_noise s;
     in_simulation := in_simulation s; sr_available := sr_available s;
     available_mics := available_mics s; mic_source := m;
     listen_thread := listen_thread s; running := running s;
     text_queue := text_queue s; callback := callback s; io := io s |}.

Definition set_callback (b : bool) (s : SpeechToText) : SpeechToText :=
  {| enabled := enabled s; adjust_for_ambient_noise := adjust_for_ambient_noise s;
     in_simulation := in_simulation s; sr_available := sr_available s;
     available_mics := available_mics s; mic_source := mic_source s;
     listen_thread := listen_thread s; running := running s;
     text_queue := text_queue s; callback := b; io := io s |}.

Definition queue_put (text : string) (s : SpeechToText) : SpeechToText :=
  {| enabled := enabled s; adjust_for_ambient_noise := adjust_for_ambient_noise s;
     in_simulation := in_simulation s; sr_available := sr_available s;
     available_mics := available_mics s; mic_source := mic_source s;
     listen_thread := listen_thread s; running := running s;
     text_queue := text_queue s ++ [text]; callback := callback s;
     io := io s ++ [QueuePut text] |}.

Definition emit (e : event) (s : SpeechToText) : SpeechToText :=
  {| enabled := enabled s; adjust_for_ambient_noise := adjust_for_ambient_noise s;
     in_simulation := in_simulation s; sr_available := sr_available s;
     available_mics := available_mics s; mic_source := mic_source s;
     listen_thread := listen_thread s; running := running s;
     text_queue := text_queue s; callback := callback s; io := io s ++ [e] |}.

(** [SpeechToText.__init__]: the preferences, the command line and the
    module-level [SR_AVAILABLE] decide the first four fields. *)
Definition __init__ (E : env) (enabled adjust in_simulation : bool)
  (mics : list string) (text_callback : bool) : SpeechToText :=
  {| enabled := enabled; adjust_for_ambient_noise := adjust;
     in_simulation := in_simulation; sr_available := SR_AVAILABLE E;
     available_mics := if SR_AVAILABLE E then mics else [];
     mic_source := None; listen_thread := None; running := false;
     text_queue := []; callback := text_callback; io := [] |}.

Definition T : Type -> Type := M SpeechToText.

Definition log (lvl : level) (msg : string) : T unit := modify (emit (Log lvl msg)).
Definition do_ (e : event) : T unit := modify (emit e).

(** An outside operation that raises unless [ok]. *)
Definition attempt (e : event) (ok : bool) (err : exn) : T unit :=
  do_ e ;; if ok then ret tt else raise err.

Definition now : T nat := fun s => (Ok (List.length (io s)), s).

(** [with sr.Microphone(device_index=i) as source: body].  Leaving the
    block, normally or by an exception, releases the device, and a
    failure of the release replaces whatever the body did.  [None] from
    the body means that it has not come to an end yet. *)
Definition with_microphone {A} (E : env) (i : option Z) (body : T (option A))
  : T (option A) :=
  attempt (MicOpen i) (mic_opens E i) OSError ;;
  fun s =>
    match body s with
    | (Ok None, s') => (Ok None, s')
    | (r, s') =>
        match attempt (MicExit i) (mic_exits E i) OSError s' with
        | (Ok _, s'') => (r, s'')
        | (Raise e, s'') => (Raise e, s'')
        end
    end.

Definition start (E : env) : T unit :=
  s <- get ;;
  if running s then
    log Warning "Speech recognition already running"
  else
    modify (set_running true) ;;
    if in_simulation s then
      log Info "Running in simulation mode - using mocked speech recognition" ;;
      modify (set_listen_thread (Some SimulationLoop)) ;;
      do_ (ThreadStart SimulationLoop) ;;
      log Info "Speech to text started (simulation mode)"
    else if negb (sr_available s) then
      log Warning "Speech recognition not available"
    else if negb (enabled s) then
      log Info "Speech recognition is disabled in user preferences"
    else
      try_except
        (when (adjust_for_ambient_noise s)
           (log Info "Adjusting for ambient noise..." ;;
            with_microphone E None
              (attempt (AdjustForAmbientNoise None) (mic_calibrates E None)
                 OSError ;;
               ret (Some tt)) ;;
            log Info "Energy threshold set") ;;
         log Info "Starting continuous speech recognition" ;;
         modify (set_listen_thread (Some ListenLoop)) ;;
         do_ (ThreadStart ListenLoop) ;;
         log Info "Speech to text started")
        (fun _ =>
           log Error "Error starting speech recognition" ;;
           modify (set_running false)).

Definition stop : T unit :=
  s <- get ;;
  if negb (running s) then ret tt
  else
    modify (set_running false) ;;
    when (match listen_thread s with Some _ => true | None => false end)
         (do_ ThreadJoin) ;;
    match mic_source s with
    | Some src =>
        (* whatever close() does, the bare except swallows it *)
        try_except (do_ (MicSourceClose src)) (fun _ => ret tt) ;;
        modify (set_mic_source None)
    | None => ret tt
    end ;;
    log Info "Speech to text stopped".

(** The part of the loops that delivers a text: the queue first, then
    the callback when one is set. *)
Definition deliver (E : env) (text : string) : T unit :=
  modify (queue_put text) ;;
  s <- get ;;
  when (callback s)
       (t <- now ;;
        attempt (Callback text) (negb (callback_raises E t)) RuntimeError).

Definition read_running (E : env) : T bool :=
  fun s => (Ok (running_at E (List.length (io s))), s).

(** One turn of the inner [while self.running] body of [_listen_loop]. *)
Definition recognition_cycle (E : env) : T unit :=
  try_except
    (t <- now ;;
     attempt Listen
       (match hears E t with ListenRaises => false | _ => true end)
       RuntimeError ;;
     do_ Recognize ;;
     match hears E t with
     | Recognized text => log Info "Recognized" ;; deliver E text
     | UnknownValue => ret tt
     | RequestFailed =>
         log Warning "Speech recognition service error" ;; do_ (Sleep 1000)
     | _ => raise RuntimeError
     end)
    (fun _ => log Error "Error in speech recognition" ;; do_ (Sleep 500)).

(** The inner loop, for at most [fuel] turns; [Some tt] when the loop
    has been left, [None] when it is still going. *)
Fixpoint recognition_loop (E : env) (fuel : nat) : T (option unit) :=
  r <- read_running E ;;
  if r then
    match fuel with
    | O => ret None
    | S fuel' => recognition_cycle E ;; recognition_loop E fuel'
    end
  else ret (Some tt).

Definition mic_indices_to_try : list Z := [13; 14; 15; 16; 5; 4; 1; 0]%Z.

(** How one round of the [for mic_index in ...] loop ends. *)
Inductive flow : Type :=
| Returned        (* the [return] after the inner loop *)
| NextCandidate   (* the except clause: go on with the next index *)
| StillListening. (* the inner loop is still going *)

Definition try_microphone (E : env) (fuel : nat) (mic_index : Z) : T flow :=
  try_except
    (log Info "Trying microphone" ;;
     r <- with_microphone E (Some mic_index)
            (modify (set_mic_source (Some (Some mic_index))) ;;
             attempt (AdjustForAmbientNoise (Some mic_index))
                     (mic_calibrates E (Some mic_index)) OSError ;;
             log Info "Successfully connected to microphone" ;;
             recognition_loop E fuel) ;;
     match r with
     | Some _ => ret Returned
     | None => ret StillListening
     end)
    (fun _ =>
       log Warning "Could not use microphone" ;;
       ret NextCandidate).

Fixpoint for_mic_index (E : env) (fuel : nat) (indices : list Z) : T flow :=
  match indices with
  | [] =>
      log Error "Could not connect to any microphone" ;;
      ret Returned
  | mic_index :: rest =>
      f <- try_microphone E fuel mic_index ;;
      match f with
      | NextCandidate => for_mic_index E fuel rest
      | _ => ret f
      end
  end.

Definition _listen_loop (E : env) (fuel : nat) : T flow :=
  if negb (SR_AVAILABLE E) then
    log Error "Speech recognition library not available" ;;
    ret Returned
  else for_mic_index E fuel mic_indices_to_try.

Definition test_phrases : list string :=
  ["Help me"; "What was that noise"; "Turn on the lights"; "Call for help"].

Definition max_recognitions : nat := 5.

(** One turn of the first [while] of [_simulation_loop]; the result is
    the new value of the local counter [recognitions]. *)
Definition simulation_turn (E : env) (recognitions : nat) : T nat :=
  try_except
    (do_ (Sleep 60000) ;;
     r <- read_running E ;;
     if r then
       let phrase :=
         nth (recognitions mod List.length test_phrases)%nat test_phrases "" in
       log Info "Simulation: Recognized speech" ;;
       deliver E phrase ;;
       ret (recognitions + 1)
     else ret recognitions)
    (fun _ =>
       log Error "Error in simulation loop" ;;
       do_ (Sleep 5000) ;;
       ret recognitions).

(** The closing [while self.running: time.sleep(10)]. *)
Fixpoint idle_loop (E : env) (fuel : nat) : T (option unit) :=
  r <- read_running E ;;
  if r then
    match fuel with
    | O => ret None
    | S fuel' => do_ (Sleep 10000) ;; idle_loop E fuel'
    end
  else ret (Some tt).

(** [_simulation_loop] from the given value of [recognitions], for at
    most [fuel] turns of its two loops together. *)
Fixpoint simulation_from (E : env) (fuel : nat) (recognitions : nat)
  : T (option unit) :=
  r <- read_running E ;;
  if r && (recognitions <? max_recognitions)%nat then
    match fuel with
    | O => ret None
    | S fuel' =>
        n <- simulation_turn E recognitions ;;
        simulation_from E fuel' n
    end
  else idle_loop E fuel.

Definition _simulation_loop (E : env) (fuel : nat) : T (option unit) :=
  simulation_from E fuel 0.

Definition probe_of (e : event) : option Z :=
  match e with MicOpen (Some i) => Some i | _ => None end.

(** The device indices that have been tried, in order. *)
Fixpoint probes (l : list event) : list Z :=
  match l with
  | [] => []
  | e :: rest =>
      match probe_of e with
      | Some i => i :: probes rest
      | None => probes rest
      end
  end.

Definition tried (s : SpeechToText) : list Z := probes (io s).

Definition is_ThreadStart (e : event) : bool :=
  match e with ThreadStart _ => true | _ => false end.

Definition threads_started (s : SpeechToText) : nat :=
  List.length (filter is_ThreadStart (io s)).

Fixpoint callbacks (l : list event) : list string :=
  match l with
  | [] => []
  | Callback text :: rest => text :: callbacks rest
  | _ :: rest => callbacks rest
  end.

(** A candidate is usable when it opens and its calibration goes through. *)
Definition works (E : env) (i : Z) : bool :=
  mic_opens E (Some i) && mic_calibrates E (Some i).

(** The candidates of [l] up to and including the first usable one, all
    of [l] when none is. *)
Fixpoint until_commit (E : env) (l : list Z) : list Z :=
  match l with
  | [] => []
  | i :: rest => if works E i then [i] else i :: until_commit E rest
  end.

(** The release of the device that the loop commits to does not raise. *)
Fixpoint clean_release (E : env) (l : list Z) : bool :=
  match l with
  | [] => true
  | i :: rest => if works E i then mic_exits E (Some i) else clean_release E rest
  end.

Definition phrase_at (n : nat) : string :=
  nth (n mod List.length test_phrases)%nat test_phrases "".

(** The reading of the specification: the priority list cut down to the
    indices below the number of available devices. *)
Definition spec_candidates (s : SpeechToText) : list Z :=
  filter (fun i => (i <? Z.of_nat (List.length (available_mics s)))%Z)
         mic_indices_to_try.

End Speech.

(** ** [src/simulator/simulator_ui.py] *)

Module Simulator.

Inductive event : Type :=
| Log (lvl : level) (msg : string)
| ThreadStart                       (* the _ui_thread *)
| RootQuit                          (* self.root.quit() *)
| EventQueuePut (message : string).

(** [quit_raises t]: whether Tk refuses the [quit] issued at instant [t]. *)
Record env : Type := { quit_raises : nat -> bool }.

Record SimulatorUI : Type := {
  root : bool;                      (* the UI thread has created the Tk root *)
  running : bool;
  io : list event
}.

Definition set_running (b : bool) (s : SimulatorUI) : SimulatorUI :=
  {| root := root s; running := b; io := io s |}.

Definition emit (e : event) (s : SimulatorUI) : SimulatorUI :=
  {| root := root s; running := running s; io := io s ++ [e] |}.

Definition __init__ : SimulatorUI :=
  {| root := false; running := false; io := [] |}.

Definition U : Type -> Type := M SimulatorUI.

Definition start : U unit :=
  s <- get ;;
  if running s then modify (emit (Log Warning "Simulator UI already running"))
  else
    modify (set_running true) ;;
    modify (emit ThreadStart) ;;
    modify (emit (Log Info "Simulator UI started")).

Definition stop (E : env) : U unit :=
  s <- get ;;
  if negb (running s) then ret tt
  else
    modify (set_running false) ;;
    when (root s)
         (fun s' =>
            if quit_raises E (List.length (io s'))
            then (Raise TclError, emit RootQuit s')
            else (Ok tt, emit RootQuit s')) ;;
    modify (emit (Log Info "Simulator UI stopped")).

Definition log_event (message : string) : U unit :=
  s <- get ;;
  when (running s) (modify (emit (EventQueuePut message))).

End Simulator.

(** ** [src/main.py] *)

Module Main.

Inductive component : Type :=
| NotificationManager
| WearableDevice
| SpeechToText
| SoundRecognition
| SimulatorUI
| DeviceController
| App.

(** What the application object asks of its components, in program order,
    and what it writes to its log. *)
Inductive call : Type :=
| Start (c : component)
| Stop (c : component)
| SetButtonCallback                 (* device_controller.set_button_callback *)
| ShowNotification (msg : string)
| UpdateStatusMessage (msg : string)
| MainLoop                          (* app.root.mainloop() *)
| HeadlessWait                      (* while running: time.sleep(1) *)
| Cleanup                           (* device_controller.cleanup() *)
| LogInfo (msg : string)
| LogError (msg : string).

(** The notification manager, the sound recognizer, the device controller
    and the GUI are defined outside the files at hand: a call to one of
    them raises when [collaborator_raises] says so at that instant. *)
Record env : Type := {
  collaborator_raises : nat -> bool;
  wearable_env : Wearable.env;
  speech_env : Speech.env;
  simulator_env : Simulator.env
}.

Record SenseBridge : Type := {
  notification_manager : bool;                    (* not None *)
  sound_recognition : bool;                       (* not None *)
  speech_to_text : option Speech.SpeechToText;
  device_controller : bool;                       (* not None *)
  wearable : option Wearable.WearableDevice;
  app : option bool;      (* Some b: the GUI object; b: its root has mainloop *)
  simulator : option Simulator.SimulatorUI;
  calls : list call                               (* oldest first *)
}.

Definition set_speech_to_text (x : option Speech.SpeechToText) (s : SenseBridge) :=
  {| notification_manager := notification_manager s;
     sound_recognition := sound_recognition s; speech_to_text := x;
     device_controller := device_controller s; wearable := wearable s;
     app := app s; simulator := simulator s; calls := calls s |}.

Definition set_wearable (x : option Wearable.WearableDevice) (s : SenseBridge) :=
  {| notification_manager := notification_manager s;
     sound_recognition := sound_recognition s;
     speech_to_text := speech_to_text s;
     device_controller := device_controller s; wearable := x;
     app := app s; simulator := simulator s; calls := calls s |}.

Definition set_simulator (x : option Simulator.SimulatorUI) (s : SenseBridge) :=
  {| notification_manager := notification_manager s;
     sound_recognition := sound_recognition s;
     speech_to_text := speech_to_text s;
     device_controller := device_controller s; wearable := wearable s;
     app := app s; simulator := x; calls := calls s |}.

Definition record (c : call) (s : SenseBridge) :=
  {| notification_manager := notification_manager s;
     sound_recognition := sound_recognition s;
     speech_to_text := speech_to_text s;
     device_controller := device_controller s; wearable := wearable s;
     app := app s; simulator := simulator s; calls := calls s ++ [c] |}.

Definition O : Type -> Type := M SenseBridge.

Definition note (c : call) : O unit := modify (record c).

(** A method call on a collaborator from outside; on [None] the
    attribute lookup fails before anything is called. *)
Definition collaborator (E : env) (present : bool) (c : call) : O unit :=
  fun s =>
    if present then
      if collaborator_raises E (List.length (calls s))
      then (Raise RuntimeError, record c s)
      else (Ok tt, record c s)
    else (Raise AttributeError, s).

(** A method call on a component whose class is modelled above: the
    method runs on the component's own state. *)
Definition on_wearable (c : call) (m : Wearable.W unit) : O unit :=
  fun s =>
    match wearable s with
    | None => (Raise AttributeError, s)
    | Some w => let (r, w') := m w in (r, set_wearable (Some w') (record c s))
    end.

Definition on_speech (c : call) (m : Speech.T unit) : O unit :=
  fun s =>
    match speech_to_text s with
    | None => (Raise AttributeError, s)
    | Some x => let (r, x') := m x in (r, set_speech_to_text (Some x') (record c s))
    end.

Definition on_simulator (c : call) (m : Simulator.U unit) : O unit :=
  fun s =>
    match simulator s with
    | None => (Raise AttributeError, s)
    | Some x => let (r, x') := m x in (r, set_simulator (Some x') (record c s))
    end.

Definition is_some {A} (o : option A) : bool :=
  match o with Some _ => true | None => false end.

Definition stop (E : env) : O unit :=
  note (LogInfo "Stopping SenseBridge...") ;;
  s <- get ;;
  when (is_some (simulator s))
       (on_simulator (Stop SimulatorUI) (Simulator.stop (simulator_env E))) ;;
  when (sound_recognition s)
       (collaborator E true (Stop SoundRecognition)) ;;
  when (is_some (speech_to_text s))
       (on_speech (Stop SpeechToText) Speech.stop) ;;
  when (is_some (wearable s))
       (on_wearable (Stop WearableDevice) (Wearable.stop (wearable_env E))) ;;
  when (notification_manager s)
       (collaborator E true (Stop NotificationManager)) ;;
  when (device_controller s)
       (collaborator E true Cleanup) ;;
  note (LogInfo "SenseBridge stopped").

(** The [try] block of [start]. *)
Definition start_body (E : env) : O unit :=
  s <- get ;;
  collaborator E (notification_manager s) (Start NotificationManager) ;;
  on_wearable (Start WearableDevice) (Wearable.start (wearable_env E)) ;;
  collaborator E (device_controller s) SetButtonCallback ;;
  when (is_some (speech_to_text s))
       (on_speech (Start SpeechToText) (Speech.start (speech_env E))) ;;
  when (sound_recognition s)
       (collaborator E true (Start SoundRecognition)) ;;
  when (is_some (simulator s))
       (on_simulator (Start SimulatorUI) Simulator.start) ;;
  collaborator E (is_some (app s)) (ShowNotification "SenseBridge is ready!") ;;
  collaborator E (is_some (app s)) (UpdateStatusMessage "System active") ;;
  note (LogInfo "SenseBridge started") ;;
  match app s with
  | Some true =>
      note (LogInfo "Starting GUI main loop") ;;
      collaborator E true MainLoop
  | _ =>
      note (LogInfo "Running in headless mode") ;;
      note HeadlessWait
  end.

Definition start (E : env) : O unit :=
  note (LogInfo "Starting SenseBridge...") ;;
  try_except
    (start_body E)
    (fun _ =>
       note (LogError "Error starting SenseBridge") ;;
       stop E).

(** The components started, respectively stopped, by a run, in order. *)
Fixpoint started (l : list call) : list component :=
  match l with
  | [] => []
  | Start c :: rest => c :: started rest
  | _ :: rest => started rest
  end.

Fixpoint stopped (l : list call) : list component :=
  match l with
  | [] => []
  | Stop c :: rest => c :: stopped rest
  | _ :: rest => stopped rest
  end.

Fixpoint cleanups (l : list call) : nat :=
  match l with
  | [] => 0
  | Cleanup :: rest => S (cleanups rest)
  | _ :: rest => cleanups rest
  end.

Definition optional (b : bool) (c : component) : list component :=
  if b then [c] else [].

(** The order in which [start] starts the components that exist. *)
Definition start_order (s : SenseBridge) : list component :=
  [NotificationManager; WearableDevice] ++
  optional (is_some (speech_to_text s)) SpeechToText ++
  optional (sound_recognition s) SoundRecognition ++
  optional (is_some (simulator s)) SimulatorUI.

(** The order in which [stop] stops them. *)
Definition stop_order (s : SenseBridge) : list component :=
  optional (is_some (simulator s)) SimulatorUI ++
  optional (sound_recognition s) SoundRecognition ++
  optional (is_some (speech_to_text s)) SpeechToText ++
  optional (is_some (wearable s)) WearableDevice ++
  optional (notification_manager s) NotificationManager.

(** The calls that a [stop] in which nothing raises makes, between its
    two log lines. *)
Definition stop_calls (s : SenseBridge) : list call :=
  map Stop (stop_order s) ++ (if device_controller s then [Cleanup] else []).

(** The calls and log lines of the [try] block of [start] when nothing
    raises. *)
Definition start_calls (s : SenseBridge) : list call :=
  [Start NotificationManager; Start WearableDevice; SetButtonCallback] ++
  map Start (optional (is_some (speech_to_text s)) SpeechToText ++
             optional (sound_recognition s) SoundRecognition ++
             optional (is_some (simulator s)) SimulatorUI) ++
  [ShowNotification "SenseBridge is ready!";
   UpdateStatusMessage "System active";
   LogInfo "SenseBridge started"] ++
  match app s with
  | Some true => [LogInfo "Starting GUI main loop"; MainLoop]
  | _ => [LogInfo "Running in headless mode"; HeadlessWait]
  end.

End Main.

(** ** Growth of a trace

    [grows io P m]: whatever [m] does, the trace [io] of the object only
    gets longer, and by entries that satisfy [P]. *)
Definition grows {S X A} (io : S -> list X) (P : X -> Prop) (m : M S A)
  : Prop :=
  forall s, exists l, io (snd (m s)) = (io s ++ l)%list /\ Forall P l.

(** ** [get_hardware_detector] ([src/utils/hardware_detection.py]) *)

Module Singleton.

(** The module-level [_hardware_detector], [None] until the first
    construction has gone through. *)
Definition cache : Type := option HardwareDetection.HardwareDetector.

Definition get_hardware_detector (E : HardwareDetection.env)
  : M cache HardwareDetection.HardwareDetector :=
  c <- get ;;
  match c with
  | Some d => ret d
  | None =>
      d <- lift (HardwareDetection.__init__ E) ;;
      modify (fun _ => Some d) ;;
      ret d
  end.

End Singleton.

(** ** The transcript queue of [SpeechToText] *)

Module Transcript.
Import Speech.

Definition set_text_queue (q : list string) (s : SpeechToText) : SpeechToText :=
  {| enabled := enabled s; adjust_for_ambient_noise := adjust_for_ambient_noise s;
     in_simulation := in_simulation s; sr_available := sr_available s;
     available_mics := available_mics s; mic_source := mic_source s;
     listen_thread := listen_thread s; running := running s;
     text_queue := q; callback := callback s; io := io s |}.

(** [get_text(timeout)], with no text arriving while it waits: the
    oldest text, or [None] once [queue.Empty] has been caught. *)
Definition get_text : T (option string) :=
  s <- get ;;
  match text_queue s with
  | [] => ret None
  | text :: rest => modify (set_text_queue rest) ;; ret (Some text)
  end.

(** [n] calls of [get_text] in a row, with their results. *)
Fixpoint get_texts (n : nat) : T (list (option string)) :=
  match n with
  | O => ret []
  | S n' =>
      r <- get_text ;;
      rs <- get_texts n' ;;
      ret (r :: rs)
  end.

(** Whether the ambient-noise calibration that [start] performs on the
    default microphone, when the preferences ask for it, goes through:
    the device opens, the calibration returns and the device is released. *)
Definition calibration_succeeds (E : env) (s : SpeechToText) : bool :=
  negb (adjust_for_ambient_noise s) ||
  (mic_opens E None && mic_calibrates E None && mic_exits E None).

End Transcript.

(** ** Construction of the application ([SenseBridge.__init__] and
    [_initialize_components] in [src/main.py]) *)

Module App.
Import Main.

Inductive signum : Type := SIGINT | SIGTERM.

(** What the constructor writes to the log and what it asks of the
    outside, in program order. *)
Inductive entry : Type :=
| Logged (lvl : level) (msg : string)
| Constructed (c : component)             (* the constructor call of [c] *)
| SignalRegistered (sig : signum).

(** The world of the constructor.  The classes defined elsewhere are
    given by the outcome of their constructors; for the two classes
    modelled above the outcome is what their constructors read from the
    configuration (the address; the preferences, the command-line flag
    and the microphone names) or the exception they end with. *)
Record world : Type := {
  hardware : HardwareDetection.env;
  new_Config : result unit;
  new_DeviceController : result unit;
  new_NotificationManager : result unit;
  new_WearableDevice : result string;
  new_SpeechToText : result (bool * bool * bool * list string);
  new_SoundRecognition : result unit;
  create_app : bool -> result bool;       (* use_gui |-> root has mainloop *)
  SIMULATOR_AVAILABLE : bool;
  signal_signal : signum -> result unit;
  runtime : Main.env
}.

(** The process: the module-level detector, the object under
    construction with its two flags, and the journal. *)
Record process : Type := {
  detector_cache : Singleton.cache;
  self : SenseBridge;
  headless : bool;
  simulation : bool;
  journal : list entry
}.

Definition set_detector_cache (c : Singleton.cache) (p : process) : process :=
  {| detector_cache := c; self := self p; headless := headless p;
     simulation := simulation p; journal := journal p |}.

Definition set_self (s : SenseBridge) (p : process) : process :=
  {| detector_cache := detector_cache p; self := s; headless := headless p;
     simulation := simulation p; journal := journal p |}.

Definition set_headless (b : bool) (p : process) : process :=
  {| detector_cache := detector_cache p; self := self p; headless := b;
     simulation := simulation p; journal := journal p |}.

Definition set_simulation (b : bool) (p : process) : process :=
  {| detector_cache := detector_cache p; self := self p;
     headless := headless p; simulation := b; journal := journal p |}.

Definition write (e : entry) (p : process) : process :=
  {| detector_cache := detector_cache p; self := self p;
     headless := headless p; simulation := simulation p;
     journal := (journal p ++ [e])%list |}.

Definition set_notification_manager (b : bool) (s : SenseBridge) : SenseBridge :=
  {| notification_manager := b; sound_recognition := sound_recognition s;
     speech_to_text := speech_to_text s;
     device_controller := device_controller s; wearable := wearable s;
     app := app s; simulator := simulator s; calls := calls s |}.

Definition set_sound_recognition (b : bool) (s : SenseBridge) : SenseBridge :=
  {| notification_manager := notification_manager s; sound_recognition := b;
     speech_to_text := speech_to_text s;
     device_controller := device_controller s; wearable := wearable s;
     app := app s; simulator := simulator s; calls := calls s |}.

Definition set_device_controller (b : bool) (s : SenseBridge) : SenseBridge :=
  {| notification_manager := notification_manager s;
     sound_recognition := sound_recognition s;
     speech_to_text := speech_to_text s; device_controller := b;
     wearable := wearable s; app := app s; simulator := simulator s;
     calls := calls s |}.

Definition set_app (a : option bool) (s : SenseBridge) : SenseBridge :=
  {| notification_manager := notification_manager s;
     sound_recognition := sound_recognition s;
     speech_to_text := speech_to_text s;
     device_controller := device_controller s; wearable := wearable s;
     app := a; simulator := simulator s; calls := calls s |}.

(** The seven component fields as the constructor first sets them. *)
Definition blank : SenseBridge :=
  {| notification_manager := false; sound_recognition := false;
     speech_to_text := None; device_controller := false; wearable := None;
     app := None; simulator := None; calls := [] |}.

(** A fresh process. *)
Definition boot : process :=
  {| detector_cache := None; self := blank; headless := false;
     simulation := false; journal := [] |}.

Definition P : Type -> Type := M process.

Definition say (lvl : level) (msg : string) : P unit :=
  modify (write (Logged lvl msg)).

Definition assign (f : SenseBridge -> SenseBridge) : P unit :=
  modify (fun p => set_self (f (self p)) p).

(** A constructor call from outside. *)
Definition construct {A} (c : component) (outcome : result A) : P A :=
  modify (write (Constructed c)) ;; lift outcome.

(** A method of the object, run on [self]. *)
Definition on_self {A} (m : O A) : P A :=
  fun p => let (r, s') := m (self p) in (r, set_self s' p).

(** [get_hardware_detector()], on the process's cache. *)
Definition get_detector (W : world) : P HardwareDetection.HardwareDetector :=
  fun p =>
    let (r, c') := Singleton.get_hardware_detector (hardware W) (detector_cache p)
    in (r, set_detector_cache c' p).

Definition _initialize_components (W : world)
  (hw : HardwareDetection.HardwareDetector) : P unit :=
  construct DeviceController (new_DeviceController W) ;;
  assign (set_device_controller true) ;;
  construct NotificationManager (new_NotificationManager W) ;;
  assign (set_notification_manager true) ;;
  mac <- construct WearableDevice (new_WearableDevice W) ;;
  assign (set_wearable (Some (Wearable.__init__ mac))) ;;
  (if HardwareDetection.has_audio hw then
     prefs <- construct SpeechToText (new_SpeechToText W) ;;
     let '(enabled, adjust, in_simulation, mics) := prefs in
     assign (set_speech_to_text
               (Some (Speech.__init__ (speech_env (runtime W))
                        enabled adjust in_simulation mics true)))
   else
     say Warning "Audio not available, speech-to-text disabled" ;;
     assign (set_speech_to_text None)) ;;
  (if HardwareDetection.has_audio hw then
     construct SoundRecognition (new_SoundRecognition W) ;;
     assign (set_sound_recognition true)
   else
     say Warning "Audio not available, sound recognition disabled" ;;
     assign (set_sound_recognition false)) ;;
  p <- get ;;
  has_mainloop <- construct App (create_app W (negb (headless p))) ;;
  assign (set_app (Some has_mainloop)) ;;
  if simulation p && SIMULATOR_AVAILABLE W then
    modify (write (Constructed SimulatorUI)) ;;
    assign (set_simulator (Some Simulator.__init__)) ;;
    say Info "Simulator UI created"
  else assign (set_simulator None).

Definition register (W : world) (sig : signum) : P unit :=
  modify (write (SignalRegistered sig)) ;; lift (signal_signal W sig).

Definition __init__ (W : world) (headless0 simulation0 : bool) : P unit :=
  say Info "Initializing SenseBridge..." ;;
  hw <- get_detector W ;;
  say Info "Hardware capabilities" ;;
  let forced := negb (HardwareDetection.has_display hw) && negb headless0 in
  when forced
       (say Warning "No display detected, switching to headless mode") ;;
  modify (set_headless (if forced then true else headless0)) ;;
  modify (set_simulation
            (simulation0 || negb (HardwareDetection.is_raspberry_pi hw))) ;;
  when (simulation0 || negb (HardwareDetection.is_raspberry_pi hw))
       (say Info "Running in simulation mode") ;;
  lift (new_Config W) ;;
  modify (set_self blank) ;;
  try_except
    (_initialize_components W hw ;;
     register W SIGINT ;;
     register W SIGTERM ;;
     say Info "SenseBridge initialized")
    (fun e =>
       say Error "Error initializing SenseBridge" ;;
       on_self (stop (runtime W)) ;;
       raise e).

Fixpoint constructed (l : list entry) : list component :=
  match l with
  | [] => []
  | Constructed c :: rest => c :: constructed rest
  | _ :: rest => constructed rest
  end.

End App.

(** ** Vocabulary for the life cycle of the wearable session *)

Module Lifecycle.
Import Wearable.

Definition is_ThreadStart (e : event) : bool :=
  match e with ThreadStart => true | _ => false end.

Definition is_ThreadJoin (e : event) : bool :=
  match e with ThreadJoin => true | _ => false end.

Definition threads_started (s : WearableDevice) : nat :=
  List.length (filter is_ThreadStart (io s)).

Definition threads_joined (s : WearableDevice) : nat :=
  List.length (filter is_ThreadJoin (io s)).

(** Not an event of the thread life cycle. *)
Definition quiet (e : event) : Prop :=
  is_ThreadStart e = false /\ is_ThreadJoin e = false.

(** Not an event of the error branch of [_connection_loop]. *)
Definition calm (e : event) : Prop :=
  e <> Sleep 10 /\ e <> Log Error "Error in wearable connection loop".

(** The events of a handshake on socket [h] with the peer [mac], up to
    and including the request for a reply. *)
Definition handshake (h : handle) (mac text : string) : list event :=
  [SocketNew h; SocketConnect h mac 1; SocketSetTimeout h 5;
   SocketSend h (text ++ newline); SocketRecv h 1024].

End Lifecycle.

(** ** [src/mock/gpio.py] *)

Module MockGPIO.

(** A Python [dict] with integer keys, in insertion order. *)
Definition dict (V : Type) : Type := list (Z * V).

Fixpoint dict_get {V} (k : Z) (d : dict V) : option V :=
  match d with
  | [] => None
  | (k', v) :: rest => if (k' =? k)%Z then Some v else dict_get k rest
  end.

(** [d[k] = v]: the value is replaced where the key is, a new key goes to
    the end. *)
Fixpoint dict_set {V} (k : Z) (v : V) (d : dict V) : dict V :=
  match d with
  | [] => [(k, v)]
  | (k', v') :: rest =>
      if (k' =? k)%Z then (k, v) :: rest else (k', v') :: dict_set k v rest
  end.

(** [if k in d: del d[k]]. *)
Fixpoint dict_del {V} (k : Z) (d : dict V) : dict V :=
  match d with
  | [] => []
  | (k', v') :: rest =>
      if (k' =? k)%Z then rest else (k', v') :: dict_del k rest
  end.

Record PWM : Type := {
  pin : Z;
  frequency : pyval;
  duty_cycle : pyval;
  running : bool
}.

(** The module's globals, the PWM objects that exist (an object is known
    by its position in [objects], to its creator and to [_pwm_instances]
    alike), and the pins for which a simulator thread was started. *)
Record gpio : Type := {
  _pin_modes : dict string;
  _pin_values : dict pyval;
  _pin_event_callbacks : dict bool;        (* the callback is not None *)
  _pin_event_bouncetime : dict pyval;
  _pwm_instances : dict nat;
  objects : list PWM;
  simulators : list Z
}.

Definition OUT : string := "OUT".
Definition IN : string := "IN".

Definition fresh : gpio :=
  {| _pin_modes := []; _pin_values := []; _pin_event_callbacks := [];
     _pin_event_bouncetime := []; _pwm_instances := []; objects := [];
     simulators := [] |}.

(** [setup(pin, mode, pull_up_down, initial)]; [PNone] for an [initial]
    that is not given. *)
Definition setup (p : Z) (mode : string) (initial : pyval) (g : gpio) : gpio :=
  {| _pin_modes := dict_set p mode (_pin_modes g);
     _pin_values :=
       if mode =? OUT then
         dict_set p (match initial with PNone => PBool false | v => v end)
                  (_pin_values g)
       else _pin_values g;
     _pin_event_callbacks := _pin_event_callbacks g;
     _pin_event_bouncetime := _pin_event_bouncetime g;
     _pwm_instances := _pwm_instances g; objects := objects g;
     simulators := simulators g |}.

Definition output (p : Z) (value : pyval) (g : gpio) : gpio :=
  {| _pin_modes := _pin_modes g;
     _pin_values := dict_set p value (_pin_values g);
     _pin_event_callbacks := _pin_event_callbacks g;
     _pin_event_bouncetime := _pin_event_bouncetime g;
     _pwm_instances := _pwm_instances g; objects := objects g;
     simulators := simulators g |}.

(** [input(pin)]: [_pin_values.get(pin, False)]. *)
Definition input (p : Z) (g : gpio) : pyval :=
  match dict_get p (_pin_values g) with
  | Some v => v
  | None => PBool false
  end.

Fixpoint update_at (i : nat) (f : PWM -> PWM) (l : list PWM) : list PWM :=
  match l, i with
  | [], _ => []
  | x :: rest, O => f x :: rest
  | x :: rest, S i' => x :: update_at i' f rest
  end.

Definition set_pwm_running (b : bool) (o : PWM) : PWM :=
  {| pin := pin o; frequency := frequency o; duty_cycle := duty_cycle o;
     running := b |}.

(** [pwm.stop()] for every object in [_pwm_instances.values()]. *)
Fixpoint stop_all (ids : list nat) (l : list PWM) : list PWM :=
  match ids with
  | [] => l
  | i :: rest => stop_all rest (update_at i (set_pwm_running false) l)
  end.

Definition cleanup (g : gpio) : gpio :=
  {| _pin_modes := []; _pin_values := []; _pin_event_callbacks := [];
     _pin_event_bouncetime := [];
     _pwm_instances := [];
     objects := stop_all (map snd (_pwm_instances g)) (objects g);
     simulators := simulators g |}.

Definition add_event_detect (p : Z) (callback : bool) (bouncetime : pyval)
  (g : gpio) : gpio :=
  {| _pin_modes := _pin_modes g; _pin_values := _pin_values g;
     _pin_event_callbacks := dict_set p callback (_pin_event_callbacks g);
     _pin_event_bouncetime := dict_set p bouncetime (_pin_event_bouncetime g);
     _pwm_instances := _pwm_instances g; objects := objects g;
     simulators := if callback then (simulators g ++ [p])%list
                   else simulators g |}.

Definition remove_event_detect (p : Z) (g : gpio) : gpio :=
  {| _pin_modes := _pin_modes g; _pin_values := _pin_values g;
     _pin_event_callbacks := dict_del p (_pin_event_callbacks g);
     _pin_event_bouncetime := dict_del p (_pin_event_bouncetime g);
     _pwm_instances := _pwm_instances g; objects := objects g;
     simulators := simulators g |}.

(** [PWM(pin, frequency)]: the new object and the globals after its
    constructor has registered it. *)
Definition PWM_new (p : Z) (freq : pyval) (g : gpio) : nat * gpio :=
  (List.length (objects g),
   {| _pin_modes := _pin_modes g; _pin_values := _pin_values g;
      _pin_event_callbacks := _pin_event_callbacks g;
      _pin_event_bouncetime := _pin_event_bouncetime g;
      _pwm_instances := dict_set p (List.length (objects g)) (_pwm_instances g);
      objects :=
        (objects g ++
         [{| pin := p; frequency := freq; duty_cycle := PInt 0;
             running := false |}])%list;
      simulators := simulators g |}).

Definition on_object (i : nat) (f : PWM -> PWM) (g : gpio) : gpio :=
  {| _pin_modes := _pin_modes g; _pin_values := _pin_values g;
     _pin_event_callbacks := _pin_event_callbacks g;
     _pin_event_bouncetime := _pin_event_bouncetime g;
     _pwm_instances := _pwm_instances g;
     objects := update_at i f (objects g);
     simulators := simulators g |}.

(** [pwm.start(duty_cycle)] and [pwm.stop()] on the object [i]. *)
Definition pwm_start (i : nat) (duty : pyval) : gpio -> gpio :=
  on_object i (fun o =>
    {| pin := pin o; frequency := frequency o; duty_cycle := duty;
       running := true |}).

Definition pwm_stop (i : nat) : gpio -> gpio :=
  on_object i (set_pwm_running false).

(** Whether the object [i] is running; an object that does not exist is
    not. *)
Definition is_running (i : nat) (g : gpio) : bool :=
  match nth_error (objects g) i with
  | Some o => running o
  | None => false
  end.

(** Whether the object [i] is the one registered for some pin. *)
Definition registered (i : nat) (g : gpio) : bool :=
  existsb (fun kv => Nat.eqb (snd kv) i) (_pwm_instances g).

(** Every registered object exists.  The module starts this way and all
    its operations keep it so. *)
Definition known (g : gpio) : Prop :=
  Forall (fun kv => snd kv < List.length (objects g)) (_pwm_instances g).

End MockGPIO.

(** ** Sample worlds and objects used in the examples *)

Module Sample.

(** A Linux host on which [/proc/device-tree/model] exists but cannot be
    read by this process, and no optional library is installed. *)
Definition unreadable_model : HardwareDetection.env :=
  {| HardwareDetection.platform_system := "Linux";
     HardwareDetection.path_exists := fun p => p =? "/proc/device-tree/model";
     HardwareDetection.read_file := fun _ => Raise PermissionError;
     HardwareDetection.import_RPi_GPIO := Raise ImportError;
     HardwareDetection.find_spec_mock_gpio := Ok true;
     HardwareDetection.import_pyaudio := Raise ImportError;
     HardwareDetection.pyaudio_PyAudio := Raise ImportError;
     HardwareDetection.get_device_count := Ok 0%Z;
     HardwareDetection.pyaudio_terminate := Ok tt;
     HardwareDetection.import_bluetooth := Raise ImportError;
     HardwareDetection.import_mock_bluetooth := Ok tt;
     HardwareDetection.environ := fun _ => None |}.

(** A desktop on which the [RPi.GPIO] package is installed: importing it
    off a Raspberry Pi raises [RuntimeError], not [ImportError]. *)
Definition gpio_package_off_target : HardwareDetection.env :=
  {| HardwareDetection.platform_system := "Linux";
     HardwareDetection.path_exists := fun _ => false;
     HardwareDetection.read_file := fun _ => Raise OSError;
     HardwareDetection.import_RPi_GPIO := Raise RuntimeError;
     HardwareDetection.find_spec_mock_gpio := Ok true;
     HardwareDetection.import_pyaudio := Ok tt;
     HardwareDetection.pyaudio_PyAudio := Ok tt;
     HardwareDetection.get_device_count := Ok 2%Z;
     HardwareDetection.pyaudio_terminate := Ok tt;
     HardwareDetection.import_bluetooth := Raise ImportError;
     HardwareDetection.import_mock_bluetooth := Ok tt;
     HardwareDetection.environ := fun _ => None |}.

(** A host with neither the Bluetooth stack nor the mock package, and
    one with the mock only, as in the repository. *)
Definition no_bluetooth_at_all : HardwareDetection.env :=
  {| HardwareDetection.platform_system := "Linux";
     HardwareDetection.path_exists := fun _ => false;
     HardwareDetection.read_file := fun _ => Raise OSError;
     HardwareDetection.import_RPi_GPIO := Raise ImportError;
     HardwareDetection.find_spec_mock_gpio := Ok false;
     HardwareDetection.import_pyaudio := Raise ImportError;
     HardwareDetection.pyaudio_PyAudio := Raise ImportError;
     HardwareDetection.get_device_count := Ok 0%Z;
     HardwareDetection.pyaudio_terminate := Ok tt;
     HardwareDetection.import_bluetooth := Raise ImportError;
     HardwareDetection.import_mock_bluetooth := Raise ImportError;
     HardwareDetection.environ := fun _ => None |}.

(** A serializer good enough for the examples: it prints the command
    name only. *)
Definition toy_dumps (v : pyval) : result string :=
  match v with
  | PDict (("cmd", PStr c) :: _) => Ok ("{cmd: " ++ c ++ "}")
  | _ => Raise TypeError
  end.


Definition real_bluetooth (fails : nat -> bool) : Wearable.env :=
  {| Wearable.bluetooth := Some Wearable.RealBluetooth;
     Wearable.fails := fails;
     Wearable.json_dumps := toy_dumps |}.

Definition mock_bluetooth : Wearable.env :=
  {| Wearable.bluetooth := Some Wearable.MockBluetooth;
     Wearable.fails := fun _ => true;
     Wearable.json_dumps := toy_dumps |}.


(** Worlds of the recognizer.  In all of them the loop thread always
    reads [running] as [True]. *)
Definition speech_world (sr : bool) (opens calibrates exits : option Z -> bool)
  (heard : nat -> Speech.hearing) (cb_raises : nat -> bool) : Speech.env :=
  {| Speech.SR_AVAILABLE := sr;
     Speech.mic_opens := opens;
     Speech.mic_calibrates := calibrates;
     Speech.mic_exits := exits;
     Speech.running_at := fun _ => true;
     Speech.hears := heard;
     Speech.callback_raises := cb_raises |}.

(** No device can be opened. *)
Definition no_microphone : Speech.env :=
  speech_world true (fun _ => false) (fun _ => false) (fun _ => true)
    (fun _ => Speech.UnknownValue) (fun _ => false).

(** Only device 5 can be opened; nobody speaks. *)
Definition microphone_five : Speech.env :=
  speech_world true
    (fun i => match i with Some 5%Z => true | _ => false end)
    (fun _ => true) (fun _ => true)
    (fun _ => Speech.UnknownValue) (fun _ => false).

(** Only device 0 can be opened, on a host with two audio devices. *)
Definition microphone_zero : Speech.env :=
  speech_world true
    (fun i => match i with Some 0%Z => true | _ => false end)
    (fun _ => true) (fun _ => true)
    (fun _ => Speech.UnknownValue) (fun _ => false).

(** The callback raises on every call, respectively on none. *)
Definition failing_callback : Speech.env :=
  speech_world true (fun _ => false) (fun _ => false) (fun _ => true)
    (fun _ => Speech.UnknownValue) (fun _ => true).

Definition sound_callback : Speech.env :=
  speech_world true (fun _ => false) (fun _ => false) (fun _ => true)
    (fun _ => Speech.UnknownValue) (fun _ => false).

(** The recognition library is missing. *)
Definition no_recognizer : Speech.env :=
  speech_world false (fun _ => false) (fun _ => false) (fun _ => true)
    (fun _ => Speech.UnknownValue) (fun _ => false).

(** A recognizer built with the simulation flag set and the application's
    callback, and one built on a host with two audio devices. *)
Definition simulated_recognizer (E : Speech.env) : Speech.SpeechToText :=
  Speech.__init__ E true true true ["default"; "monitor"] true.

Definition recognizer (E : Speech.env) : Speech.SpeechToText :=
  Speech.__init__ E true true false ["default"; "monitor"] true.

(** The application as its constructor leaves it on a host with audio,
    without a display (hence headless) and with the simulator. *)
Definition application : Main.SenseBridge :=
  {| Main.notification_manager := true;
     Main.sound_recognition := true;
     Main.speech_to_text := Some (simulated_recognizer sound_callback);
     Main.device_controller := true;
     Main.wearable := Some (Wearable.__init__ "00:11:22:33:44:55");
     Main.app := Some false;
     Main.simulator := Some Simulator.__init__;
     Main.calls := [] |}.

(** A world of the application in which the collaborators' calls raise
    at the instants picked by [raises]. *)
Definition application_world (raises : nat -> bool) : Main.env :=
  {| Main.collaborator_raises := raises;
     Main.wearable_env := mock_bluetooth;
     Main.speech_env := sound_callback;
     Main.simulator_env := {| Simulator.quit_raises := fun _ => false |} |}.

Definition calm : Main.env := application_world (fun _ => false).

(** The application after a start in which nothing raised; it has made
    twelve calls and log entries by then. *)
Definition started_application : Main.SenseBridge :=
  snd (Main.start calm application).


(** A Raspberry Pi with a readable model file, a frame buffer, the
    Bluetooth stack and one audio device, on which [RPi.GPIO] is not
    installed. *)
Definition pi_without_gpio : HardwareDetection.env :=
  {| HardwareDetection.platform_system := "Linux";
     HardwareDetection.path_exists :=
       fun p => (p =? "/proc/device-tree/model") || (p =? "/dev/fb0");
     HardwareDetection.read_file := fun _ => Ok "Raspberry Pi 4 Model B Rev 1.4";
     HardwareDetection.import_RPi_GPIO := Raise ImportError;
     HardwareDetection.find_spec_mock_gpio := Ok true;
     HardwareDetection.import_pyaudio := Ok tt;
     HardwareDetection.pyaudio_PyAudio := Ok tt;
     HardwareDetection.get_device_count := Ok 1%Z;
     HardwareDetection.pyaudio_terminate := Ok tt;
     HardwareDetection.import_bluetooth := Ok tt;
     HardwareDetection.import_mock_bluetooth := Ok tt;
     HardwareDetection.environ := fun _ => None |}.

(** A desktop without audio, display or Bluetooth, on which every
    constructor goes through, and the same with a wearable configuration
    that cannot be read. *)
Definition desktop : App.world :=
  {| App.hardware := no_bluetooth_at_all;
     App.new_Config := Ok tt;
     App.new_DeviceController := Ok tt;
     App.new_NotificationManager := Ok tt;
     App.new_WearableDevice := Ok "00:11:22:33:44:55";
     App.new_SpeechToText := Ok (true, true, false, ["default"]);
     App.new_SoundRecognition := Ok tt;
     App.create_app := fun _ => Ok false;
     App.SIMULATOR_AVAILABLE := true;
     App.signal_signal := fun _ => Ok tt;
     App.runtime := calm |}.

Definition desktop_without_wearable_config : App.world :=
  {| App.hardware := no_bluetooth_at_all;
     App.new_Config := Ok tt;
     App.new_DeviceController := Ok tt;
     App.new_NotificationManager := Ok tt;
     App.new_WearableDevice := Raise TypeError;
     App.new_SpeechToText := Ok (true, true, false, ["default"]);
     App.new_SoundRecognition := Ok tt;
     App.create_app := fun _ => Ok false;
     App.SIMULATOR_AVAILABLE := true;
     App.signal_signal := fun _ => Ok tt;
     App.runtime := calm |}.

End Sample.

(* ===================================================================== *)
(** * Part II: properties *)
(* ===================================================================== *)

Local Open Scope list_scope.

(** ** Reasoning about computations *)

Section Keeps.
Context {S X : Type} (f : S -> X).

Lemma keeps_ret {A} (a : A) : keeps f (ret a).
Proof. intros s; reflexivity. Qed.

Lemma keeps_raise {A} (e : exn) : keeps f (@raise S A e).
Proof. intros s; reflexivity. Qed.

Lemma keeps_get : keeps f get.
Proof. intros s; reflexivity. Qed.

Lemma keeps_lift {A} (r : result A) : keeps f (lift r).
Proof. intros s; reflexivity. Qed.

Lemma keeps_modify (g : S -> S) : (forall s, f (g s) = f s) -> keeps f (modify g).
Proof. intros H s; apply H. Qed.

Lemma keeps_bind {A B} (m : M S A) (k : A -> M S B) :
  keeps f m -> (forall a, keeps f (k a)) -> keeps f (bind m k).
Proof.
  intros Hm Hk s. unfold bind. specialize (Hm s).
  destruct (m s) as [[a|e] s']; cbn [snd] in *.
  - rewrite Hk. exact Hm.
  - exact Hm.
Qed.

Lemma keeps_try_except {A} (m : M S A) (h : exn -> M S A) :
  keeps f m -> (forall e, keeps f (h e)) -> keeps f (try_except m h).
Proof.
  intros Hm Hh s. unfold try_except. specialize (Hm s).
  destruct (m s) as [[a|e] s']; cbn [snd] in *.
  - exact Hm.
  - rewrite Hh. exact Hm.
Qed.

Lemma keeps_when (b : bool) (m : M S unit) : keeps f m -> keeps f (when b m).
Proof. intros Hm. destruct b; [exact Hm | apply keeps_ret]. Qed.

End Keeps.

Section Safe.
Context {S : Type}.

Lemma safe_ret {A} (a : A) : safe (@ret S A a).
Proof. intros s; reflexivity. Qed.

Lemma safe_get : safe (@get S).
Proof. intros s; reflexivity. Qed.

Lemma safe_modify (g : S -> S) : safe (modify g).
Proof. intros s; reflexivity. Qed.

Lemma safe_bind {A B} (m : M S A) (k : A -> M S B) :
  safe m -> (forall a, safe (k a)) -> safe (bind m k).
Proof.
  intros Hm Hk s. unfold bind. specialize (Hm s).
  destruct (m s) as [[a|e] s']; cbn [fst] in *; [apply Hk | discriminate].
Qed.

Lemma safe_try_except {A} (m : M S A) (h : exn -> M S A) :
  (forall e, safe (h e)) -> safe (try_except m h).
Proof.
  intros Hh s. unfold try_except.
  destruct (m s) as [[a|e] s']; [reflexivity | apply Hh].
Qed.

Lemma safe_when (b : bool) (m : M S unit) : safe m -> safe (when b m).
Proof. intros Hm. destruct b; [exact Hm | apply safe_ret]. Qed.

Lemma safe_Ok {A} (m : M S A) (s : S) :
  safe m -> exists a, m s = (Ok a, snd (m s)).
Proof.
  intros Hm. specialize (Hm s). destruct (m s) as [[a|e] s']; cbn in *;
    [eauto | discriminate].
Qed.

End Safe.

Ltac safe_step :=
  first
    [ apply safe_ret | apply safe_get | apply safe_modify
    | apply safe_try_except; intro
    | apply safe_bind; [|intro]
    | apply safe_when ].

Ltac keeps_step :=
  first
    [ apply keeps_ret | apply keeps_raise | apply keeps_get | apply keeps_lift
    | apply keeps_bind; [|intro]
    | apply keeps_try_except; [|intro]
    | apply keeps_when
    | apply keeps_modify; intros []; reflexivity ].

(** ** Capability detection *)

Section Detection.
Import HardwareDetection.

(** [_check_audio] and [_check_display] cannot raise. *)
Lemma _check_audio_returns (E : env) : exists b, _check_audio E = Ok b.
Proof.
  unfold _check_audio, rbind.
  destruct (import_pyaudio E), (pyaudio_PyAudio E), (get_device_count E),
    (pyaudio_terminate E); eauto.
Qed.

Lemma _check_display_returns (E : env) pi : exists b, _check_display E pi = Ok b.
Proof.
  unfold _check_display.
  destruct (environ E "DISPLAY") as [v|]; [destruct (negb (v =? ""))|];
    destruct pi; eauto.
Qed.

(** The construction goes through in every world in which the model file,
    when present, can be read and the two guarded imports fail, if at
    all, with [ImportError]. *)
Lemma __init___returns (E : env) :
  (path_exists E "/proc/device-tree/model" = true ->
   returns (read_file E "/proc/device-tree/model") = true) ->
  (forall e, import_RPi_GPIO E = Raise e -> e = ImportError) ->
  (forall e, import_bluetooth E = Raise e -> e = ImportError) ->
  exists d, __init__ E = Ok d.
Proof.
  intros Hread Hgpio Hbt.
  unfold __init__.
  assert (exists pi, _detect_raspberry_pi E = Ok pi) as [pi ->].
  { unfold _detect_raspberry_pi, rbind.
    destruct (path_exists E "/proc/device-tree/model").
    - specialize (Hread eq_refl).
      destruct (read_file E "/proc/device-tree/model") as [model|]; [|discriminate].
      destruct (contains "Raspberry Pi" model); eauto.
      destruct (path_exists E "/etc/rpi-issue"); eauto.
    - destruct (path_exists E "/etc/rpi-issue"); eauto. }
  assert (exists g, _check_gpio E = Ok g) as [g ->].
  { unfold _check_gpio. destruct (import_RPi_GPIO E) as [|e] eqn:Hi; eauto.
    rewrite (Hgpio e eq_refl). simpl.
    destruct (find_spec_mock_gpio E) as [[]|]; eauto. }
  destruct (_check_audio_returns E) as [a ->].
  assert (exists b, _check_bluetooth E = Ok b) as [b ->].
  { unfold _check_bluetooth. destruct (import_bluetooth E) as [|e] eqn:Hi; eauto.
    rewrite (Hbt e eq_refl). simpl. eauto. }
  cbn [rbind].
  destruct (_check_display_returns E pi) as [d ->].
  cbn [rbind]. eauto.
Qed.

(** C8 (fails on the code): capability detection is claimed never to
    throw, a failing probe only clearing its flag.  Where the model file
    exists and cannot be read, [_detect_raspberry_pi] has no handler and
    the constructor ends with that exception instead of a detector. *)
Theorem detector_raises_on_unreadable_model_file :
  __init__ Sample.unreadable_model = Raise PermissionError.
Proof. reflexivity. Qed.

(** The same happens in [_check_gpio], whose handler names [ImportError]
    only. *)
Lemma detector_raises_on_gpio_runtime_error :
  __init__ Sample.gpio_package_off_target = Raise RuntimeError.
Proof. reflexivity. Qed.

End Detection.

(** ** The wearable session *)

Section Session.
Import Wearable.

Ltac unfold_session :=
  cbv [step start stop send_command _connect loop_body sock_op socket_new
       op_raises log do_ when bind ret get modify lift try_except raise
       set_connected set_socket set_connection_thread set_running emit
       fst snd wearable_mac connected socket connection_thread running io].

Lemma sockets_constructed_emit (s : WearableDevice) (e : event) :
  sockets_constructed (emit e s) =
  sockets_constructed s + (if is_SocketNew e then 1 else 0).
Proof.
  unfold sockets_constructed, emit; simpl.
  rewrite filter_app, length_app; simpl.
  destruct (is_SocketNew e); reflexivity.
Qed.

Lemma no_socket_in_app (l : list event) (e : event) :
  is_SocketNew e = false ->
  List.length (filter is_SocketNew (l ++ [e])) = List.length (filter is_SocketNew l).
Proof.
  intros H. rewrite filter_app, length_app; simpl. rewrite H; simpl. lia.
Qed.

(** The invariant behind both statements about a session that can never
    connect: it holds of the fresh object and every call and every turn
    of the connection loop keeps it, as long as the Bluetooth module is
    missing or the configured address is empty. *)
Lemma never_connected_invariant (E : env) (mac : string) (s : WearableDevice) :
  bluetooth E = None \/ mac = "" ->
  reachable E mac s ->
  wearable_mac s = mac /\ never_connected s /\
  (bluetooth E = None -> connection_thread s = false).
Proof.
  intros Hcause Hreach. unfold never_connected.
  induction Hreach as [|s a Hreach IH Hen].
  - cbn. repeat split; reflexivity.
  - destruct IH as (Hmac & (Hc & Hs & Hn) & Hth).
    destruct s as [m c so th r tr]; cbn in Hmac, Hc, Hs, Hn, Hth, Hen.
    unfold sockets_constructed in *; cbn [io] in *.
    subst m c so.
    destruct a; cbn [enabled connection_thread] in Hen.
    + (* start *)
      unfold_session. destruct r; [|destruct (bluetooth E) eqn:Hbt].
      * cbn. rewrite no_socket_in_app by reflexivity. auto.
      * cbn. rewrite !no_socket_in_app by reflexivity.
        repeat split; auto; discriminate.
      * cbn. rewrite no_socket_in_app by reflexivity. auto.
    + (* stop *)
      unfold_session. destruct r; cbn; [|auto].
      destruct th; cbn; rewrite ?no_socket_in_app by reflexivity; auto.
    + (* send_command *)
      unfold_session. cbn. rewrite no_socket_in_app by reflexivity. auto.
    + (* a turn of the loop *)
      subst th.
      destruct Hcause as [Hnone | Hempty].
      * specialize (Hth Hnone). discriminate.
      * subst mac. unfold_session. cbn.
        rewrite !no_socket_in_app by reflexivity. auto.
Qed.

(** A session that never connected refuses every command. *)
Lemma send_command_refused (E : env) (s : WearableDevice) command params :
  connected s = false \/ socket s = None ->
  send_command E command params s =
  (Ok false,
   emit (Log Warning "Cannot send command - not connected to wearable") s).
Proof.
  intros H. unfold send_command, bind, get, log, modify, ret.
  destruct (connected s), (socket s); try reflexivity;
    destruct H; discriminate.
Qed.

(** [stop] on a session that is not running does nothing at all; after
    [stop] the session is not running; [stop] never raises. *)
Lemma stop_when_not_running (E : env) (s : WearableDevice) :
  running s = false -> stop E s = (Ok tt, s).
Proof. intros H. unfold stop, bind, get. rewrite H. reflexivity. Qed.

Lemma stop_clears_running (E : env) (s : WearableDevice) :
  running (snd (stop E s)) = false.
Proof.
  destruct s as [m c so th r tr]. unfold_session.
  destruct r; cbn; [|reflexivity].
  destruct so; cbn; [destruct (match bluetooth E with
                               | Some MockBluetooth => false
                               | _ => fails E (List.length tr)
                               end); cbn|];
    destruct th; reflexivity.
Qed.

Lemma stop_safe (E : env) : safe (stop E).
Proof.
  unfold stop, log, do_. apply safe_bind; [safe_step|intros s].
  destruct (negb (running s)); [safe_step|].
  apply safe_bind; [safe_step|intros _].
  apply safe_bind; [destruct (socket s); repeat safe_step|intros _].
  repeat safe_step.
Qed.

(** The connection loop preserves reachability: running it for any number
    of turns is a sequence of loop turns. *)
Lemma sock_op_keeps_thread (E : env) (e : event) :
  keeps connection_thread (sock_op E e).
Proof. intros [m c so th r tr]. unfold sock_op. destruct (op_raises E _); reflexivity. Qed.

Lemma socket_new_keeps_thread (E : env) : keeps connection_thread (socket_new E).
Proof.
  intros [m c so th r tr]. unfold socket_new.
  destruct (bluetooth E) as [[]|]; [destruct (fails E _)| |]; reflexivity.
Qed.

Lemma _connect_keeps_thread (E : env) : keeps connection_thread (_connect E).
Proof.
  unfold _connect, log, do_.
  apply keeps_bind; [apply keeps_get|intros s].
  destruct (wearable_mac s =? "").
  - repeat keeps_step.
  - apply keeps_try_except; [|intros e].
    + repeat first [ apply sock_op_keeps_thread | apply socket_new_keeps_thread
                   | keeps_step ].
    + apply keeps_bind; [keeps_step|intros _].
      apply keeps_bind; [keeps_step|intros s'].
      apply keeps_bind; [|intros _; repeat keeps_step].
      destruct (socket s'); repeat first [apply sock_op_keeps_thread | keeps_step].
Qed.

Lemma loop_body_keeps_thread (E : env) (s : WearableDevice) :
  connection_thread (snd (loop_body E s)) = connection_thread s.
Proof.
  revert s. change (keeps connection_thread (loop_body E)).
  unfold loop_body, log, do_.
  repeat first [ apply _connect_keeps_thread | keeps_step ].
Qed.

Lemma _connection_loop_reachable (E : env) (mac : string) (fuel : nat) :
  forall s, reachable E mac s -> connection_thread s = true ->
            reachable E mac (snd (_connection_loop E fuel s)).
Proof.
  induction fuel as [|fuel IH]; intros s Hr Ht; cbn.
  - exact Hr.
  - unfold bind at 1, get. destruct (running s); [|exact Hr].
    unfold bind.
    pose proof (reachable_step E mac s LoopTurn Hr Ht) as Hr'.
    pose proof (loop_body_keeps_thread E s) as Ht'.
    cbn [step] in Hr'.
    destruct (loop_body E s) as [[[]|e] s']; cbn [snd] in *.
    + apply IH; congruence.
    + exact Hr'.
Qed.



(** C10: with an empty configured address, in every state that the
    session can reach (calls of [start], [stop] and [send_command] in any
    order, interleaved with turns of the connection loop) no socket has
    been constructed, [connected] is [False], and [send_command] returns
    [False]. *)
Theorem empty_mac_never_connects (E : env) (s : WearableDevice) :
  reachable E "" s ->
  sockets_constructed s = 0 /\ connected s = false /\ socket s = None /\
  forall command params, fst (send_command E command params s) = Ok false.
Proof.
  intros Hr.
  destruct (never_connected_invariant E "" s (or_intror eq_refl) Hr)
    as (_ & (Hc & Hs & Hn) & _).
  repeat split; auto.
  intros command params. rewrite send_command_refused by auto. reflexivity.
Qed.

(** An instance: Bluetooth is available (the mock), the device is
    started and the connection loop has taken two turns. *)
Lemma empty_mac_never_connects_witness :
  let s := run Sample.mock_bluetooth [CallStart; LoopTurn; LoopTurn]
               (__init__ "") in
  running s = true /\ connection_thread s = true /\
  sockets_constructed s = 0 /\ connected s = false /\ socket s = None /\
  forall command params,
    fst (send_command Sample.mock_bluetooth command params s) = Ok false.
Proof.
  cbv zeta. split; [reflexivity|]. split; [reflexivity|].
  apply empty_mac_never_connects.
  cbn [run].
  repeat (apply reachable_step; [|reflexivity]).
  apply reachable_init.
Defined.




End Session.

(** ** The speech capture loop *)

Section Capture.
Import Speech.

Lemma threads_started_emit (s : SpeechToText) (e : event) :
  is_ThreadStart e = false -> threads_started (emit e s) = threads_started s.
Proof.
  intros H. unfold threads_started, emit; cbn.
  rewrite filter_app, length_app; cbn. rewrite H; cbn. lia.
Qed.

(** A running recognizer answers [start] with the warning and nothing
    else. *)
Lemma start_when_running (E : env) (s : SpeechToText) :
  running s = true ->
  start E s = (Ok tt, emit (Log Warning "Speech recognition already running") s).
Proof.
  intros H. unfold start, bind, get, log, modify. rewrite H. reflexivity.
Qed.

Lemma starts_when_running (E : env) (n : nat) (s : SpeechToText) :
  running s = true ->
  let sn := Nat.iter n (fun x => snd (start E x)) s in
  running sn = true /\ listen_thread sn = listen_thread s /\
  threads_started sn = threads_started s /\ text_queue sn = text_queue s.
Proof.
  intros H. induction n as [|n IH]; cbn -[start].
  - auto.
  - destruct IH as (Hr & Hl & Ht & Hq).
    rewrite start_when_running by exact Hr. cbn [snd].
    rewrite threads_started_emit by reflexivity. cbn. auto.
Qed.

(** C9: with the simulation flag unset and either the recognition library
    missing or speech disabled, [start] returns normally with [running]
    set and no thread created; from then on every [start], however many
    times repeated, returns at the already-running guard and creates no
    thread either; [stop] is what clears the flag again. *)
Theorem disabled_start_latches_running (E : env) (s : SpeechToText) :
  running s = false ->
  in_simulation s = false ->
  sr_available s = false \/ enabled s = false ->
  let s1 := snd (start E s) in
  fst (start E s) = Ok tt /\
  running s1 = true /\
  listen_thread s1 = listen_thread s /\
  threads_started s1 = threads_started s /\
  start E s1 =
    (Ok tt, emit (Log Warning "Speech recognition already running") s1) /\
  (forall n, let sn := Nat.iter n (fun x => snd (start E x)) s1 in
             running sn = true /\ listen_thread sn = listen_thread s /\
             threads_started sn = threads_started s) /\
  running (snd (stop s1)) = false.
Proof.
  intros Hrun Hsim Hoff. cbv zeta.
  assert (Hs1 : exists msg lvl,
             start E s = (Ok tt, emit (Log lvl msg) (set_running true s))).
  { unfold start, bind, get, log, modify. rewrite Hrun; cbn. rewrite Hsim.
    destruct (sr_available s); cbn; [|eauto].
    destruct Hoff as [Hoff|Hoff]; [discriminate|]. rewrite Hoff; cbn. eauto. }
  destruct Hs1 as (msg & lvl & Hs1). rewrite Hs1. cbn [fst snd].
  assert (Hr1 : running (emit (Log lvl msg) (set_running true s)) = true)
    by reflexivity.
  split; [reflexivity|]. split; [reflexivity|]. split; [reflexivity|].
  split; [rewrite threads_started_emit by reflexivity; reflexivity|].
  split; [apply start_when_running; reflexivity|].
  split.
  - intros n.
    destruct (starts_when_running E n _ Hr1) as (H1 & H2 & H3 & _).
    cbv zeta in *. rewrite H1, H2, H3.
    rewrite threads_started_emit by reflexivity. repeat split; reflexivity.
  - unfold stop, bind, get, modify, when, try_except, do_, log, ret.
    cbn. destruct (listen_thread s), (mic_source s); reflexivity.
Qed.

(** An instance: the recognition library is missing. *)
Lemma disabled_start_latches_running_witness :
  let E := Sample.no_recognizer in
  let s1 := snd (start E (Sample.recognizer E)) in
  running s1 = true /\ listen_thread s1 = None /\ threads_started s1 = 0 /\
  running (snd (start E (snd (start E s1)))) = true /\
  threads_started (snd (start E (snd (start E s1)))) = 0.
Proof.
  destruct (disabled_start_latches_running Sample.no_recognizer
              (Sample.recognizer Sample.no_recognizer)
              eq_refl eq_refl (or_introl eq_refl))
    as (_ & Hr & Hl & Ht & _ & Hn & _).
  destruct (Hn 2) as (Hr2 & _ & Ht2).
  cbv zeta. repeat split; assumption.
Defined.

Lemma speech_stop_when_not_running (s : SpeechToText) :
  running s = false -> stop s = (Ok tt, s).
Proof. intros H. unfold stop, bind, get. rewrite H. reflexivity. Qed.

Lemma speech_stop_clears_running (s : SpeechToText) :
  running (snd (stop s)) = false.
Proof.
  destruct s as [en adj sim sr mics src th r q cb tr].
  unfold stop, bind, get, modify, when, try_except, do_, log, ret. cbn.
  destruct r; cbn; [|reflexivity]. destruct th, src; reflexivity.
Qed.

Lemma speech_stop_safe : safe stop.
Proof.
  unfold stop, log, do_. apply safe_bind; [safe_step|intros s].
  destruct (negb (running s)); [safe_step|].
  apply safe_bind; [safe_step|intros _].
  apply safe_bind; [repeat safe_step|intros _].
  apply safe_bind; [destruct (mic_source s); repeat safe_step|intros _].
  repeat safe_step.
Qed.

(** *** The simulation loop *)

Lemma callbacks_app (l1 l2 : list event) :
  callbacks (l1 ++ l2) = callbacks l1 ++ callbacks l2.
Proof.
  induction l1 as [|e l1 IH]; cbn; [reflexivity|].
  destruct e; cbn; rewrite IH; reflexivity.
Qed.

Ltac unfold_speech :=
  cbv [simulation_turn deliver attempt read_running now log do_ when bind ret
       get modify raise try_except queue_put emit set_running
       fst snd callback io text_queue].

(** While [running] stays up and the callback returns, a turn delivers
    the phrase of its index and advances the counter. *)
Lemma simulation_turn_delivers (E : env) (n : nat) (s : SpeechToText) :
  (forall t, running_at E t = true) ->
  (forall t, callback_raises E t = false) ->
  exists s',
    simulation_turn E n s = (Ok (n + 1), s') /\
    text_queue s' = text_queue s ++ [phrase_at n] /\
    callbacks (io s') =
      callbacks (io s) ++ (if callback s then [phrase_at n] else []) /\
    callback s' = callback s.
Proof.
  intros Hrun Hcb. destruct s as [en adj sim sr mics src th r q cb tr].
  unfold_speech. rewrite Hrun. cbn.
  destruct cb; cbn.
  - rewrite Hcb. cbn. eexists. split; [reflexivity|]. cbn.
    rewrite !callbacks_app. cbn. rewrite !app_nil_r.
    repeat split; reflexivity.
  - eexists. split; [reflexivity|]. cbn.
    rewrite !callbacks_app. cbn. rewrite !app_nil_r.
    repeat split; reflexivity.
Qed.

(** While [running] stays up and the callback raises, a turn still puts
    its phrase in the queue, and the counter stays where it was. *)
Lemma simulation_turn_repeats (E : env) (n : nat) (s : SpeechToText) :
  (forall t, running_at E t = true) ->
  (forall t, callback_raises E t = true) ->
  callback s = true ->
  exists s',
    simulation_turn E n s = (Ok n, s') /\
    text_queue s' = text_queue s ++ [phrase_at n] /\
    callback s' = true.
Proof.
  intros Hrun Hcb Hset. destruct s as [en adj sim sr mics src th r q cb tr].
  cbn in Hset. subst cb.
  unfold_speech. rewrite Hrun. cbn. rewrite Hcb. cbn.
  eexists. split; [reflexivity|]. split; reflexivity.
Qed.

Lemma idle_loop_idles (E : env) (fuel : nat) (s : SpeechToText) :
  (forall t, running_at E t = true) ->
  exists s',
    idle_loop E fuel s = (Ok None, s') /\
    text_queue s' = text_queue s /\ callbacks (io s') = callbacks (io s).
Proof.
  intros Hrun. revert s. induction fuel as [|fuel IH]; intros s; cbn.
  - unfold bind, read_running, ret. rewrite Hrun. eauto.
  - unfold bind at 1, read_running. rewrite Hrun.
    unfold bind, do_, modify.
    destruct (IH (emit (Sleep 10000) s)) as (s' & -> & Hq & Hc).
    exists s'. split; [reflexivity|]. split; [exact Hq|].
    rewrite Hc. cbn. rewrite callbacks_app. cbn. apply app_nil_r.
Qed.

(** With a callback that returns and nobody stopping the recognizer, the
    loop delivers the phrases of the indices [n .. 4] and then idles, for
    any number of further turns. *)
Lemma simulation_delivers_the_rest (E : env) :
  (forall t, running_at E t = true) ->
  (forall t, callback_raises E t = false) ->
  forall k n fuel s,
    n + k = max_recognitions -> k <= fuel ->
    exists s',
      simulation_from E fuel n s = (Ok None, s') /\
      text_queue s' = text_queue s ++ map phrase_at (seq n k) /\
      callbacks (io s') =
        callbacks (io s) ++
        (if callback s then map phrase_at (seq n k) else []).
Proof.
  intros Hrun Hcb. induction k as [|k IH]; intros n fuel s Hn Hk.
  - assert (n = max_recognitions) by lia. subst n.
    destruct (idle_loop_idles E fuel s Hrun) as (s' & Hi & Hq & Hc).
    exists s'. split.
    + destruct fuel; cbn; unfold bind at 1, read_running; rewrite Hrun;
        cbn; exact Hi.
    + cbn. destruct (callback s); rewrite !app_nil_r; auto.
  - destruct fuel as [|fuel]; [lia|].
    cbn [simulation_from]. unfold bind at 1, read_running. rewrite Hrun.
    assert (Hlt : (n <? max_recognitions)%nat = true)
      by (apply Nat.ltb_lt; lia).
    rewrite Hlt. cbn [andb]. unfold bind.
    destruct (simulation_turn_delivers E n s Hrun Hcb)
      as (s1 & -> & Hq1 & Hc1 & Hcb1).
    destruct (IH (n + 1) fuel s1) as (s' & -> & Hq & Hc); [lia | lia |].
    exists s'. split; [reflexivity|].
    rewrite Hq, Hc, Hq1, Hc1, Hcb1. cbn [seq map].
    replace (S n) with (n + 1) by lia.
    rewrite <- !app_assoc. split; [reflexivity|].
    destruct (callback s); cbn; rewrite ?app_nil_r; reflexivity.
Qed.

(** The five phrases, when the callback behaves. *)
Lemma simulation_emits_five (E : env) (fuel : nat) (s : SpeechToText) :
  (forall t, running_at E t = true) ->
  (forall t, callback_raises E t = false) ->
  callback s = true ->
  5 <= fuel ->
  let r := _simulation_loop E fuel s in
  fst r = Ok None /\
  text_queue (snd r) =
    text_queue s ++ ["Help me"; "What was that noise"; "Turn on the lights";
                     "Call for help"; "Help me"] /\
  callbacks (io (snd r)) =
    callbacks (io s) ++ ["Help me"; "What was that noise"; "Turn on the lights";
                         "Call for help"; "Help me"].
Proof.
  intros Hrun Hcb Hset Hfuel. cbv zeta. unfold _simulation_loop.
  destruct (simulation_delivers_the_rest E Hrun Hcb 5 0 fuel s eq_refl Hfuel)
    as (s' & -> & Hq & Hc).
  rewrite Hset in Hc. cbn [fst snd]. auto.
Qed.

(** With a callback that raises, every turn puts "Help me" in the queue
    again: after [fuel] turns the queue has grown by [fuel] phrases. *)
Lemma simulation_repeats_first_phrase (E : env) :
  (forall t, running_at E t = true) ->
  (forall t, callback_raises E t = true) ->
  forall fuel s,
    callback s = true ->
    exists s',
      simulation_from E fuel 0 s = (Ok None, s') /\
      text_queue s' = text_queue s ++ repeat "Help me" fuel.
Proof.
  intros Hrun Hcb. induction fuel as [|fuel IH]; intros s Hset.
  - cbn. unfold bind, read_running, ret. rewrite Hrun. cbn.
    exists s. rewrite app_nil_r. auto.
  - cbn [simulation_from]. unfold bind at 1, read_running. rewrite Hrun.
    cbn [andb Nat.ltb Nat.leb max_recognitions]. unfold bind.
    destruct (simulation_turn_repeats E 0 s Hrun Hcb Hset)
      as (s1 & -> & Hq1 & Hset1).
    destruct (IH s1 Hset1) as (s' & -> & Hq).
    exists s'. split; [reflexivity|].
    rewrite Hq, Hq1. rewrite <- app_assoc. reflexivity.
Qed.

(** C7 (fails on the code): the loop is claimed to deliver exactly five
    phrases and nothing after the fifth.  With the callback raising, the
    counter is never advanced: after seven turns the queue holds seven
    phrases, all of them the first one, and the loop is still at it. *)
Theorem simulation_exceeds_five_when_callback_raises :
  let E := Sample.failing_callback in
  let r := _simulation_loop E 7 (Sample.simulated_recognizer E) in
  fst r = Ok None /\
  text_queue (snd r) = repeat "Help me" 7 /\
  callbacks (io (snd r)) = repeat "Help me" 7.
Proof. cbv zeta. vm_compute. repeat split; reflexivity. Qed.

(** *** The microphone candidates *)

Lemma probes_app (l1 l2 : list event) :
  probes (l1 ++ l2) = probes l1 ++ probes l2.
Proof.
  induction l1 as [|e l1 IH]; cbn; [reflexivity|].
  destruct (probe_of e); cbn; rewrite IH; reflexivity.
Qed.

Lemma tried_emit (e : event) (s : SpeechToText) :
  tried (emit e s) =
  tried s ++ match probe_of e with Some i => [i] | None => [] end.
Proof.
  unfold tried, emit; cbn. rewrite probes_app. cbn.
  destruct (probe_of e); reflexivity.
Qed.

Lemma keeps_tried_do (e : event) :
  probe_of e = None -> keeps tried (do_ e).
Proof.
  intros H s. unfold do_, modify. cbn [snd]. rewrite tried_emit, H.
  apply app_nil_r.
Qed.

Lemma keeps_tried_log lvl msg : keeps tried (log lvl msg).
Proof. apply (keeps_tried_do (Log lvl msg)). reflexivity. Qed.

Lemma keeps_tried_attempt (e : event) (ok : bool) (err : exn) :
  probe_of e = None -> keeps tried (attempt e ok err).
Proof.
  intros H. unfold attempt. apply keeps_bind; [apply keeps_tried_do, H|].
  intros _. destruct ok; [apply keeps_ret | apply keeps_raise].
Qed.

Lemma keeps_tried_deliver (E : env) (text : string) :
  keeps tried (deliver E text).
Proof.
  unfold deliver. apply keeps_bind.
  - intros s. unfold modify, queue_put, tried. cbn. rewrite probes_app. cbn.
    apply app_nil_r.
  - intros _. apply keeps_bind; [apply keeps_get|intros s].
    apply keeps_when. apply keeps_bind; [intros x; reflexivity|intros t].
    apply keeps_tried_attempt. reflexivity.
Qed.

Lemma keeps_tried_cycle (E : env) : keeps tried (recognition_cycle E).
Proof.
  unfold recognition_cycle.
  apply keeps_try_except.
  - apply keeps_bind; [intros x; reflexivity|intros t].
    apply keeps_bind; [apply keeps_tried_attempt; reflexivity|intros _].
    apply keeps_bind; [apply keeps_tried_do; reflexivity|intros _].
    destruct (hears E t);
      repeat first [ apply keeps_tried_log | apply keeps_tried_deliver
                   | apply keeps_tried_do; reflexivity | keeps_step ].
  - intros e. apply keeps_bind; [apply keeps_tried_log|intros _].
    apply keeps_tried_do; reflexivity.
Qed.

Lemma safe_cycle (E : env) : safe (recognition_cycle E).
Proof.
  unfold recognition_cycle, log, do_. repeat safe_step.
Qed.

(** The inner loop never raises and never opens a device; while [running]
    stays up it does not come to an end. *)
Lemma recognition_loop_spec (E : env) (fuel : nat) (s : SpeechToText) :
  exists o s',
    recognition_loop E fuel s = (Ok o, s') /\
    tried s' = tried s /\
    ((forall t, running_at E t = true) -> o = None).
Proof.
  revert s. induction fuel as [|fuel IH]; intros s; cbn;
    destruct (running_at E (List.length (io s))) eqn:Hr.
  - exists None, s. auto.
  - exists (Some tt), s. repeat split; auto.
    intros H. rewrite H in Hr. discriminate.
  - unfold bind.
    destruct (safe_Ok (recognition_cycle E) s (safe_cycle E)) as ([] & ->).
    destruct (IH (snd (recognition_cycle E s))) as (o & s' & -> & Ht & Hp).
    exists o, s'. repeat split; auto.
    rewrite Ht. apply keeps_tried_cycle.
  - exists (Some tt), s. repeat split; auto.
    intros H. rewrite H in Hr. discriminate.
Qed.

(** One round of the [for] loop: it tries exactly its own index, never
    raises, goes on to the next candidate when this one is not usable,
    and otherwise goes on only if the release of the device raised. *)
Lemma try_microphone_spec (E : env) (fuel : nat) (i : Z) (s : SpeechToText) :
  exists f s',
    try_microphone E fuel i s = (Ok f, s') /\
    tried s' = tried s ++ [i] /\
    (works E i = false -> f = NextCandidate) /\
    (works E i = true -> mic_exits E (Some i) = true -> f <> NextCandidate) /\
    (works E i = true -> (forall t, running_at E t = true) ->
     f = StillListening).
Proof.
  unfold works.
  unfold try_microphone, with_microphone, attempt, log, do_.
  unfold try_except, bind at 1 2 3 4, modify.
  cbn [fst snd].
  unfold bind at 1 2. cbn [fst snd].
  destruct (mic_opens E (Some i)) eqn:Hopen; cbn [andb].
  2:{ cbn. eexists _, _. split; [reflexivity|].
      rewrite !tried_emit. cbn. rewrite !app_nil_r.
      repeat split; auto; discriminate. }
  unfold ret at 1. unfold bind at 1 2 3 4. cbn [fst snd].
  destruct (mic_calibrates E (Some i)) eqn:Hcal.
  2:{ cbn. destruct (mic_exits E (Some i)); cbn;
        (eexists _, _; split; [reflexivity|]);
        rewrite !tried_emit; cbn; rewrite !app_nil_r;
        unfold tried; cbn; rewrite !probes_app; cbn; rewrite !app_nil_r;
        (repeat split; auto; discriminate). }
  unfold ret at 1. cbn [fst snd].
  match goal with
  | |- context [recognition_loop E fuel ?x] =>
      destruct (recognition_loop_spec E fuel x) as (o & s1 & Hloop & Ht & Hp);
      rewrite Hloop;
      assert (Hx : tried x = tried s ++ [i])
        by (unfold tried; cbn; rewrite !probes_app; cbn;
            rewrite !app_nil_r; reflexivity)
  end.
  rewrite Hx in Ht. clear Hx Hloop.
  destruct o as [[]|].
  - destruct (mic_exits E (Some i)) eqn:Hexit; cbn.
    + eexists _, _. split; [reflexivity|].
      rewrite tried_emit; cbn; rewrite app_nil_r.
      repeat split; auto; try discriminate.
      intros _ Hrun. specialize (Hp Hrun). discriminate.
    + eexists _, _. split; [reflexivity|].
      rewrite !tried_emit; cbn; rewrite !app_nil_r.
      repeat split; auto; try discriminate.
      intros _ Hrun. specialize (Hp Hrun). discriminate.
  - cbn. eexists _, _. split; [reflexivity|].
    repeat split; auto; discriminate.
Qed.

Lemma until_commit_length (E : env) (i : Z) (rest : list Z) :
  List.length (until_commit E (i :: rest)) <=
  S (List.length (until_commit E rest)).
Proof. cbn. destruct (works E i); cbn; lia. Qed.

Lemma for_mic_index_spec (E : env) (fuel : nat) (l : list Z) :
  forall s, exists f s',
    for_mic_index E fuel l s = (Ok f, s') /\
    (exists k, tried s' = tried s ++ firstn k l /\
               List.length (until_commit E l) <= k) /\
    ((forall t, running_at E t = true) ->
     tried s' = tried s ++ until_commit E l) /\
    (clean_release E l = true -> tried s' = tried s ++ until_commit E l).
Proof.
  induction l as [|i rest IH]; intros s.
  - cbn. eexists _, _. split; [reflexivity|].
    rewrite tried_emit; cbn. repeat split; auto.
    exists 0. cbn. auto.
  - cbn [for_mic_index]. unfold bind.
    destruct (try_microphone_spec E fuel i s)
      as (f & s1 & -> & Ht & Hbad & Hgood & Hrun).
    assert (Hcommit : f <> NextCandidate ->
                      exists s', (Ok f, s1) = (Ok f, s') /\
                        (exists k, tried s' = tried s ++ firstn k (i :: rest) /\
                           List.length (until_commit E (i :: rest)) <= k) /\
                        ((forall t, running_at E t = true) ->
                         tried s' = tried s ++ until_commit E (i :: rest)) /\
                        (clean_release E (i :: rest) = true ->
                         tried s' = tried s ++ until_commit E (i :: rest))).
    { intros Hf. exists s1. split; [reflexivity|].
      destruct (works E i) eqn:Hw; [|specialize (Hbad eq_refl); contradiction].
      cbn [until_commit clean_release]. rewrite Hw.
      repeat split; auto. exists 1. cbn. auto. }
    destruct f.
    + destruct Hcommit as (s' & Heq & H); [discriminate|]. eauto.
    + destruct (IH s1) as (f' & s' & -> & (k & Hk & Hlen) & Hr & Hc).
      exists f', s'. split; [reflexivity|].
      rewrite Ht, <- app_assoc in Hk, Hr, Hc. cbn [app] in Hk, Hr, Hc.
      split; [|split].
      * exists (S k). cbn [firstn]. split; [exact Hk|].
        pose proof (until_commit_length E i rest). lia.
      * intros Hall. cbn [until_commit].
        destruct (works E i) eqn:Hw.
        -- specialize (Hrun eq_refl Hall). discriminate.
        -- auto.
      * cbn [until_commit clean_release].
        destruct (works E i) eqn:Hw.
        -- intros Hexit. exfalso. apply (Hgood eq_refl Hexit). reflexivity.
        -- auto.
    + destruct Hcommit as (s' & Heq & H); [discriminate|]. eauto.
Qed.

(** C2 (as amended): the loop tries the candidates in the order
    [13, 14, 15, 16, 5, 4, 1, 0], none left out on account of the number
    of available devices, and at least up to the first one that opens
    and calibrates; it never raises; while [running] stays up, and also
    afterwards when the release of the committed device goes through,
    the candidates tried are exactly those up to and including that first
    usable one. *)
Theorem listen_loop_probe_order (E : env) (fuel : nat) (s : SpeechToText) :
  SR_AVAILABLE E = true ->
  let s' := snd (_listen_loop E fuel s) in
  returns (fst (_listen_loop E fuel s)) = true /\
  (exists k, tried s' = tried s ++ firstn k mic_indices_to_try /\
             List.length (until_commit E mic_indices_to_try) <= k) /\
  ((forall t, running_at E t = true) ->
   tried s' = tried s ++ until_commit E mic_indices_to_try) /\
  (clean_release E mic_indices_to_try = true ->
   tried s' = tried s ++ until_commit E mic_indices_to_try).
Proof.
  intros Hsr. cbv zeta. unfold _listen_loop. rewrite Hsr. cbn [negb].
  destruct (for_mic_index_spec E fuel mic_indices_to_try s)
    as (f & s' & -> & H).
  split; [reflexivity | exact H].
Qed.

(** An instance: only device 5 can be opened, and the loop is still
    listening on it after two attempts. *)
Lemma listen_loop_probe_order_witness :
  let E := Sample.microphone_five in
  tried (snd (_listen_loop E 2 (Sample.recognizer E))) = [13; 14; 15; 16; 5]%Z.
Proof.
  destruct (listen_loop_probe_order Sample.microphone_five 2
              (Sample.recognizer Sample.microphone_five) eq_refl)
    as (_ & _ & Hrun & _).
  exact (Hrun (fun _ => eq_refl)).
Defined.

(** C2 (as stated) fails: on a host with two audio devices of which
    device 0 is the microphone, the filtered list would be [1, 0], and the
    loop tries 13, 14, 15, 16, 5 and 4 before these. *)
Lemma candidates_are_not_filtered :
  let E := Sample.microphone_zero in
  let s := Sample.recognizer E in
  List.length (available_mics s) = 2 /\
  spec_candidates s = [1; 0]%Z /\
  tried (snd (_listen_loop E 1 s)) = [13; 14; 15; 16; 5; 4; 1; 0]%Z /\
  tried (snd (_listen_loop E 1 s)) <> spec_candidates s.
Proof. cbv zeta. vm_compute. repeat split; discriminate. Qed.

End Capture.

(** ** The simulator window *)

Section Window.
Import Simulator.

Lemma window_stop_when_not_running (E : env) (s : SimulatorUI) :
  running s = false -> stop E s = (Ok tt, s).
Proof. intros H. unfold stop, bind, get. rewrite H. reflexivity. Qed.

Lemma window_stop_clears_running (E : env) (s : SimulatorUI) :
  running (snd (stop E s)) = false.
Proof.
  destruct s as [rt r tr]. unfold stop, bind, get, modify, when, ret. cbn.
  destruct r; cbn; [|reflexivity].
  destruct rt; cbn; [destruct (quit_raises E _)|]; reflexivity.
Qed.

Lemma window_stop_safe (E : env) :
  (forall t, quit_raises E t = false) -> safe (stop E).
Proof.
  intros Hq. unfold stop. apply safe_bind; [safe_step|intros s].
  destruct (negb (running s)); [safe_step|].
  apply safe_bind; [safe_step|intros _].
  apply safe_bind; [|intros _; safe_step].
  apply safe_when. intros s'. rewrite Hq. reflexivity.
Qed.

End Window.

(** ** The application object *)

Section Application.
Import Main.


Lemma stopped_app (l1 l2 : list call) :
  stopped (l1 ++ l2) = stopped l1 ++ stopped l2.
Proof.
  induction l1 as [|c l1 IH]; cbn; [reflexivity|].
  destruct c; cbn; rewrite ?IH; reflexivity.
Qed.

Lemma cleanups_app (l1 l2 : list call) :
  cleanups (l1 ++ l2) = cleanups l1 + cleanups l2.
Proof.
  induction l1 as [|c l1 IH]; cbn; [reflexivity|].
  destruct c; cbn; rewrite ?IH; reflexivity.
Qed.

Ltac unfold_application :=
  cbv [stop start start_body bind note modify when collaborator on_wearable
       on_speech on_simulator get ret try_except record set_wearable
       set_speech_to_text set_simulator is_some
       notification_manager sound_recognition speech_to_text
       device_controller wearable app simulator calls
       stop_calls stop_order start_calls start_order optional].

(** Take the outcomes of the components' own methods and of the
    collaborators' calls one by one. *)
Ltac next_outcome :=
  match goal with
  | |- context [Simulator.stop ?e ?x] =>
      destruct (Simulator.stop e x) as [[[]|?] ?]
  | |- context [Speech.stop ?x] =>
      destruct (Speech.stop x) as [[[]|?] ?]
  | |- context [Wearable.stop ?e ?x] =>
      destruct (Wearable.stop e x) as [[[]|?] ?]
  | |- context [Simulator.start ?x] =>
      destruct (Simulator.start x) as [[[]|?] ?]
  | |- context [Speech.start ?e ?x] =>
      destruct (Speech.start e x) as [[[]|?] ?]
  | |- context [Wearable.start ?e ?x] =>
      destruct (Wearable.start e x) as [[[]|?] ?]
  | |- context [collaborator_raises ?e ?n] =>
      destruct (collaborator_raises e n)
  end; cbn [fst snd].

(** The same, keeping the equation. *)
Ltac next_outcome_eq :=
  match goal with
  | |- context [Simulator.stop ?e ?x] =>
      destruct (Simulator.stop e x) as [[[]|?] ?] eqn:?
  | |- context [Speech.stop ?x] =>
      destruct (Speech.stop x) as [[[]|?] ?] eqn:?
  | |- context [Wearable.stop ?e ?x] =>
      destruct (Wearable.stop e x) as [[[]|?] ?] eqn:?
  | |- context [collaborator_raises ?e ?n] =>
      destruct (collaborator_raises e n)
  end; cbn [fst snd].

Ltac by_outcomes :=
  repeat match goal with
    | H : _ = (_, _) |- _ => rewrite ?H; clear H
    end; reflexivity.

Ltac pick_count :=
  exists 0 + exists 1 + exists 2 + exists 3 + exists 4 + exists 5 +
  exists 6 + exists 7 + exists 8 + exists 9 + exists 10 + exists 11 +
  exists 12.

(** [stop] is a straight line: it logs, makes the calls of [stop_calls]
    one after the other and logs again; the first call that raises ends
    it there, with that exception. *)
Lemma stop_trace (E : env) (s : SenseBridge) :
  (fst (stop E s) = Ok tt /\
   calls (snd (stop E s)) =
     calls s ++ [LogInfo "Stopping SenseBridge..."] ++ stop_calls s ++
     [LogInfo "SenseBridge stopped"]) \/
  (exists e k,
     fst (stop E s) = Raise e /\
     k < List.length (stop_calls s) /\
     calls (snd (stop E s)) =
       calls s ++ [LogInfo "Stopping SenseBridge..."] ++
       firstn (S k) (stop_calls s)).
Proof.
  destruct s as [nm sr sp dc w ap sim cs].
  destruct nm, sr, sp as [sp|], dc, w as [w|], sim as [sim|];
    unfold_application; cbn [fst snd];
    repeat next_outcome;
    rewrite <- ?app_assoc; cbn;
    first [ left; split; reflexivity
          | right; eexists; pick_count;
            (split; [reflexivity|]); split; [lia | reflexivity] ].
Qed.


(** Neither [stop] nor the [try] block of [start] creates or drops a
    component. *)
Lemma stop_keeps_components (E : env) (s : SenseBridge) :
  stop_calls (snd (stop E s)) = stop_calls s /\
  start_calls (snd (stop E s)) = start_calls s.
Proof.
  destruct s as [nm sr sp dc w ap sim cs].
  destruct nm, sr, sp as [sp|], dc, w as [w|], sim as [sim|];
    unfold_application; cbn [fst snd];
    repeat next_outcome; split; reflexivity.
Qed.


Lemma stopped_map_Stop (l : list component) : stopped (map Stop l) = l.
Proof. induction l; cbn; congruence. Qed.

Lemma started_map_Start (l : list component) : started (map Start l) = l.
Proof. induction l; cbn; congruence. Qed.


Lemma stopped_stop_calls (s : SenseBridge) : stopped (stop_calls s) = stop_order s.
Proof.
  unfold stop_calls. rewrite stopped_app, stopped_map_Stop.
  destruct (device_controller s); cbn; apply app_nil_r.
Qed.










(** What one [stop] does to each of the three components whose classes
    are modelled: nothing, or that component's own [stop]. *)
Lemma stop_touches (E : env) (s : SenseBridge) :
  (wearable (snd (stop E s)) = wearable s \/
   exists w, wearable s = Some w /\
     wearable (snd (stop E s)) = Some (snd (Wearable.stop (wearable_env E) w))) /\
  (speech_to_text (snd (stop E s)) = speech_to_text s \/
   exists x, speech_to_text s = Some x /\
     speech_to_text (snd (stop E s)) = Some (snd (Speech.stop x))) /\
  (simulator (snd (stop E s)) = simulator s \/
   exists x, simulator s = Some x /\
     simulator (snd (stop E s)) =
       Some (snd (Simulator.stop (simulator_env E) x))).
Proof.
  destruct s as [nm sr sp dc w ap sim cs].
  destruct nm, sr, sp as [sp|], dc, w as [w|], sim as [sim|];
    unfold_application; cbn [fst snd];
    repeat next_outcome_eq;
    repeat split;
    first [ left; reflexivity
          | right; eexists; split; [reflexivity | by_outcomes] ].
Qed.

Lemma collaborator_safe (E : env) (c : call) :
  (forall t, collaborator_raises E t = false) -> safe (collaborator E true c).
Proof. intros H s. unfold collaborator. rewrite H. reflexivity. Qed.

Lemma on_wearable_safe (c : call) (m : Wearable.W unit) :
  safe m -> forall s, is_some (wearable s) = true ->
                      returns (fst (on_wearable c m s)) = true.
Proof.
  intros Hm s Hs. unfold on_wearable. destruct (wearable s) as [w|];
    [|discriminate].
  specialize (Hm w). destruct (m w). exact Hm.
Qed.

Lemma on_speech_safe (c : call) (m : Speech.T unit) :
  safe m -> forall s, is_some (speech_to_text s) = true ->
                      returns (fst (on_speech c m s)) = true.
Proof.
  intros Hm s Hs. unfold on_speech. destruct (speech_to_text s) as [x|];
    [|discriminate].
  specialize (Hm x). destruct (m x). exact Hm.
Qed.

Lemma on_simulator_safe (c : call) (m : Simulator.U unit) :
  safe m -> forall s, is_some (simulator s) = true ->
                      returns (fst (on_simulator c m s)) = true.
Proof.
  intros Hm s Hs. unfold on_simulator. destruct (simulator s) as [x|];
    [|discriminate].
  specialize (Hm x). destruct (m x). exact Hm.
Qed.

(** When no collaborator and no Tk call raises, [stop] returns. *)
Lemma stop_returns (E : env) (s : SenseBridge) :
  (forall t, collaborator_raises E t = false) ->
  (forall t, Simulator.quit_raises (simulator_env E) t = false) ->
  fst (stop E s) = Ok tt.
Proof.
  intros Hc Hq.
  pose proof (window_stop_safe (simulator_env E) Hq) as Hwin.
  pose proof (stop_safe (wearable_env E)) as Hwear.
  pose proof speech_stop_safe as Hsp.
  destruct s as [nm sr sp dc w ap sim cs].
  destruct nm, sr, sp as [sp|], dc, w as [w|], sim as [sim|];
    unfold_application; cbn [fst snd];
    repeat (first
      [ progress rewrite Hc
      | match goal with
        | |- context [Simulator.stop ?e ?x] =>
            let H := fresh in
            pose proof (Hwin x) as H;
            destruct (Simulator.stop e x) as [[[]|?] ?];
            [clear H|discriminate H]
        | |- context [Speech.stop ?x] =>
            let H := fresh in
            pose proof (Hsp x) as H;
            destruct (Speech.stop x) as [[[]|?] ?]; [clear H|discriminate H]
        | |- context [Wearable.stop ?e ?x] =>
            let H := fresh in
            pose proof (Hwear x) as H;
            destruct (Wearable.stop e x) as [[[]|?] ?];
            [clear H|discriminate H]
        end ]; cbn [fst snd]);
    reflexivity.
Qed.

(** C6 (as amended): of two [stop] calls in a row, at most one acts on
    the wearable session, on the recognizer and on the simulator window,
    the other finding [running] down and returning at once; when no
    collaborator and no Tk call raises, neither [stop] raises and the
    second one leaves those three as they are.  The application object
    itself has no such guard: the second [stop] calls every component's
    [stop] and the device controller's [cleanup] once more. *)
Theorem stop_twice (E : env) (s : SenseBridge) :
  let s1 := snd (stop E s) in
  let s2 := snd (stop E s1) in
  (wearable s1 = wearable s \/ wearable s2 = wearable s1) /\
  (speech_to_text s1 = speech_to_text s \/
   speech_to_text s2 = speech_to_text s1) /\
  (simulator s1 = simulator s \/ simulator s2 = simulator s1) /\
  ((forall t, collaborator_raises E t = false) ->
   (forall t, Simulator.quit_raises (simulator_env E) t = false) ->
   fst (stop E s) = Ok tt /\ fst (stop E s1) = Ok tt /\
   wearable s2 = wearable s1 /\
   speech_to_text s2 = speech_to_text s1 /\
   simulator s2 = simulator s1 /\
   stopped (calls s2) = stopped (calls s) ++ stop_order s ++ stop_order s /\
   cleanups (calls s2) =
     cleanups (calls s) + (if device_controller s then 2 else 0)).
Proof.
  cbv zeta.
  destruct (stop_touches E s) as (Hw & Hsp & Hsim).
  destruct (stop_touches E (snd (stop E s))) as (Hw2 & Hsp2 & Hsim2).
  assert (Gw : wearable (snd (stop E s)) = wearable s \/
               wearable (snd (stop E (snd (stop E s)))) =
               wearable (snd (stop E s))).
  { destruct Hw as [Hw | (w & _ & Hw)]; [left; exact Hw | right].
    destruct Hw2 as [Hw2 | (w1 & Hw1 & Hw2)]; [exact Hw2|].
    rewrite Hw2, Hw1. rewrite Hw in Hw1. injection Hw1 as <-.
    rewrite stop_when_not_running by apply stop_clears_running.
    reflexivity. }
  assert (Gsp : speech_to_text (snd (stop E s)) = speech_to_text s \/
                speech_to_text (snd (stop E (snd (stop E s)))) =
                speech_to_text (snd (stop E s))).
  { destruct Hsp as [Hsp | (x & _ & Hsp)]; [left; exact Hsp | right].
    destruct Hsp2 as [Hsp2 | (x1 & Hx1 & Hsp2)]; [exact Hsp2|].
    rewrite Hsp2, Hx1. rewrite Hsp in Hx1. injection Hx1 as <-.
    rewrite speech_stop_when_not_running by apply speech_stop_clears_running.
    reflexivity. }
  assert (Gsim : simulator (snd (stop E s)) = simulator s \/
                 simulator (snd (stop E (snd (stop E s)))) =
                 simulator (snd (stop E s))).
  { destruct Hsim as [Hsim | (x & _ & Hsim)]; [left; exact Hsim | right].
    destruct Hsim2 as [Hsim2 | (x1 & Hx1 & Hsim2)]; [exact Hsim2|].
    rewrite Hsim2, Hx1. rewrite Hsim in Hx1. injection Hx1 as <-.
    rewrite window_stop_when_not_running by apply window_stop_clears_running.
    reflexivity. }
  split; [exact Gw|]. split; [exact Gsp|]. split; [exact Gsim|].
  intros Hc Hq.
  pose proof (stop_returns E s Hc Hq) as R1.
  pose proof (stop_returns E (snd (stop E s)) Hc Hq) as R2.
  split; [exact R1|]. split; [exact R2|].
  destruct (stop_trace E s) as [(_ & C1) | (e & k & He & _)];
    [|rewrite R1 in He; discriminate].
  destruct (stop_trace E (snd (stop E s))) as [(_ & C2) | (e & k & He & _)];
    [|rewrite R2 in He; discriminate].
  destruct (stop_keeps_components E s) as (Hkeep & _).
  rewrite Hkeep in C2.
  assert (Hfull : forall E' s', fst (stop E' s') = Ok tt ->
            (is_some (wearable s') = true ->
             exists w, wearable s' = Some w /\
               wearable (snd (stop E' s')) =
               Some (snd (Wearable.stop (wearable_env E') w))) /\
            (is_some (speech_to_text s') = true ->
             exists x, speech_to_text s' = Some x /\
               speech_to_text (snd (stop E' s')) = Some (snd (Speech.stop x))) /\
            (is_some (simulator s') = true ->
             exists x, simulator s' = Some x /\
               simulator (snd (stop E' s')) =
               Some (snd (Simulator.stop (simulator_env E') x)))).
  { clear. intros E' s'. destruct s' as [nm sr sp dc w ap sim cs].
    destruct nm, sr, sp as [sp|], dc, w as [w|], sim as [sim|];
      unfold_application; cbn [fst snd];
      repeat next_outcome_eq; intros Hok; try discriminate Hok;
      repeat split; intros Hp; try discriminate Hp;
      eexists; (split; [reflexivity | by_outcomes]). }
  destruct (Hfull E s R1) as (Fw & Fsp & Fsim).
  assert (Qw : wearable (snd (stop E (snd (stop E s)))) =
               wearable (snd (stop E s))).
  { destruct Gw as [Gw|Gw]; [|exact Gw].
    destruct Hw2 as [Hw2 | (w1 & Hw1 & Hw2)]; [exact Hw2|].
    destruct (wearable s) as [w|] eqn:Ews; [|rewrite Gw in Hw1; discriminate].
    destruct (Fw eq_refl) as (w' & Hw' & Hst). injection Hw' as <-.
    rewrite Hw2, Hw1. rewrite Hst in Hw1. injection Hw1 as <-.
    rewrite stop_when_not_running by apply stop_clears_running.
    reflexivity. }
  assert (Qsp : speech_to_text (snd (stop E (snd (stop E s)))) =
                speech_to_text (snd (stop E s))).
  { destruct Gsp as [Gsp|Gsp]; [|exact Gsp].
    destruct Hsp2 as [Hsp2 | (x1 & Hx1 & Hsp2)]; [exact Hsp2|].
    destruct (speech_to_text s) as [x|] eqn:Exs;
      [|rewrite Gsp in Hx1; discriminate].
    destruct (Fsp eq_refl) as (x' & Hx' & Hst). injection Hx' as <-.
    rewrite Hsp2, Hx1. rewrite Hst in Hx1. injection Hx1 as <-.
    rewrite speech_stop_when_not_running by apply speech_stop_clears_running.
    reflexivity. }
  assert (Qsim : simulator (snd (stop E (snd (stop E s)))) =
                 simulator (snd (stop E s))).
  { destruct Gsim as [Gsim|Gsim]; [|exact Gsim].
    destruct Hsim2 as [Hsim2 | (x1 & Hx1 & Hsim2)]; [exact Hsim2|].
    destruct (simulator s) as [x|] eqn:Exs;
      [|rewrite Gsim in Hx1; discriminate].
    destruct (Fsim eq_refl) as (x' & Hx' & Hst). injection Hx' as <-.
    rewrite Hsim2, Hx1. rewrite Hst in Hx1. injection Hx1 as <-.
    rewrite window_stop_when_not_running by apply window_stop_clears_running.
    reflexivity. }
  split; [exact Qw|]. split; [exact Qsp|]. split; [exact Qsim|].
  rewrite C2, C1. split.
  - rewrite !stopped_app. cbn. rewrite !stopped_stop_calls. cbn.
    rewrite !app_nil_r, <- app_assoc. reflexivity.
  - rewrite !cleanups_app. cbn.
    assert (Hcl : cleanups (stop_calls s) =
                  if device_controller s then 1 else 0).
    { unfold stop_calls. rewrite cleanups_app.
      assert (Hm : forall l, cleanups (map Stop l) = 0)
        by (induction l; cbn; auto).
      rewrite Hm. destruct (device_controller s); reflexivity. }
    rewrite Hcl. destruct (device_controller s); lia.
Qed.

(** An instance: the started application, in a world where nothing
    raises. *)
Lemma stop_twice_witness :
  let s1 := snd (stop Sample.calm Sample.started_application) in
  let s2 := snd (stop Sample.calm s1) in
  fst (stop Sample.calm Sample.started_application) = Ok tt /\
  fst (stop Sample.calm s1) = Ok tt /\
  wearable s2 = wearable s1.
Proof.
  destruct (stop_twice Sample.calm Sample.started_application)
    as (_ & _ & _ & H).
  destruct (H (fun _ => eq_refl) (fun _ => eq_refl)) as (R1 & R2 & Hw & _).
  cbv zeta. repeat split; assumption.
Defined.

(** C6 (as stated) fails: stopping the started application twice makes
    the release call on the device controller twice, and stops the
    notification manager and the sound recognizer twice. *)
Lemma second_stop_releases_again :
  let s1 := snd (stop Sample.calm Sample.started_application) in
  let s2 := snd (stop Sample.calm s1) in
  cleanups (calls Sample.started_application) = 0 /\
  cleanups (calls s1) = 1 /\
  cleanups (calls s2) = 2 /\
  stopped (calls s2) =
    [SimulatorUI; SoundRecognition; SpeechToText; WearableDevice;
     NotificationManager;
     SimulatorUI; SoundRecognition; SpeechToText; WearableDevice;
     NotificationManager].
Proof. cbv zeta. vm_compute. repeat split; reflexivity. Qed.

End Application.

(* ===================================================================== *)
(** * Part III: further properties *)
(* ===================================================================== *)

(** ** The detector and its singleton *)

Section DetectorFlags.
Import HardwareDetection.

(** An instance of [__init___returns]: a Raspberry Pi whose model file
    reads and on which the GPIO import fails with [ImportError]. *)
Lemma __init___returns_witness :
  exists d, __init__ Sample.pi_without_gpio = Ok d.
Proof.
  apply (__init___returns Sample.pi_without_gpio).
  - intros _. reflexivity.
  - intros e H. injection H as <-. reflexivity.
  - intros e H. discriminate H.
Defined.

Lemma unit_result_Ok (r : result unit) : returns r = true <-> r = Ok tt.
Proof. destruct r as [[]|]; cbn; split; congruence. Qed.

(** What the flags of a constructed detector say about the host: GPIO and
    Bluetooth stand for the real libraries (the mock never counts), audio
    for a PyAudio session that opened, counted at least one device and
    closed again, the display for a non-empty [DISPLAY] or a frame buffer
    on a Raspberry Pi. *)
Theorem detector_flags (E : env) (d : HardwareDetector) :
  __init__ E = Ok d ->
  platform d = platform_system E /\
  (has_gpio d = true <-> import_RPi_GPIO E = Ok tt) /\
  (has_bluetooth d = true <-> import_bluetooth E = Ok tt) /\
  (has_audio d = true <->
   import_pyaudio E = Ok tt /\ pyaudio_PyAudio E = Ok tt /\
   pyaudio_terminate E = Ok tt /\
   exists n, get_device_count E = Ok n /\ (0 < n)%Z) /\
  (has_display d = true <->
   (exists v, environ E "DISPLAY" = Some v /\ v <> "") \/
   (is_raspberry_pi d = true /\ path_exists E "/dev/fb0" = true)) /\
  (is_raspberry_pi d = true <->
   (path_exists E "/proc/device-tree/model" = true /\
    exists model, read_file E "/proc/device-tree/model" = Ok model /\
                  contains "Raspberry Pi" model = true) \/
   path_exists E "/etc/rpi-issue" = true).
Proof.
  unfold __init__.
  destruct (_detect_raspberry_pi E) as [pi|] eqn:Hpi; cbn [rbind]; [|discriminate].
  destruct (_check_gpio E) as [g|] eqn:Hg; cbn [rbind]; [|discriminate].
  destruct (_check_audio E) as [a|] eqn:Ha; cbn [rbind]; [|discriminate].
  destruct (_check_bluetooth E) as [b|] eqn:Hb; cbn [rbind]; [|discriminate].
  destruct (_check_display E pi) as [dsp|] eqn:Hd; cbn [rbind]; [|discriminate].
  intros H. injection H as <-. cbn.
  split; [reflexivity|]. split; [|split; [|split; [|split]]].
  - unfold _check_gpio in Hg.
    destruct (import_RPi_GPIO E) as [[]|e].
    + injection Hg as <-. tauto.
    + destruct (is_ImportError e); [|discriminate].
      destruct (find_spec_mock_gpio E) as [[]|]; injection Hg as <-;
        split; discriminate.
  - unfold _check_bluetooth in Hb.
    destruct (import_bluetooth E) as [[]|e].
    + injection Hb as <-. tauto.
    + destruct (is_ImportError e); [|discriminate].
      injection Hb as <-. split; discriminate.
  - unfold _check_audio, rbind in Ha.
    destruct (import_pyaudio E) as [[]|];
      [|injection Ha as <-; split; [discriminate | intros (H & _); discriminate]].
    destruct (pyaudio_PyAudio E) as [[]|];
      [|injection Ha as <-; split; [discriminate | intros (_ & H & _); discriminate]].
    destruct (get_device_count E) as [n|];
      [|injection Ha as <-; split;
        [discriminate | intros (_ & _ & _ & n & H & _); discriminate]].
    destruct (pyaudio_terminate E) as [[]|];
      [|injection Ha as <-; split;
        [discriminate | intros (_ & _ & H & _); discriminate]].
    injection Ha as <-. rewrite Z.ltb_lt. split.
    + intros Hn. repeat split; auto. exists n. auto.
    + intros (_ & _ & _ & m & Hm & Hlt). injection Hm as <-. exact Hlt.
  - unfold _check_display in Hd.
    destruct (environ E "DISPLAY") as [v|].
    + destruct (v =? "") eqn:Hv; cbn [negb] in Hd.
      * apply String.eqb_eq in Hv. subst v.
        destruct pi; injection Hd as <-; split.
        -- intros Hf. right. auto.
        -- intros [(v & Hv & Hne) | (_ & Hf)]; [|exact Hf].
           injection Hv as <-. contradiction.
        -- discriminate.
        -- intros [(v & Hv & Hne) | (Hp & _)]; [|discriminate].
           injection Hv as <-. contradiction.
      * apply String.eqb_neq in Hv. injection Hd as <-. split; [|reflexivity].
        intros _. left. exists v. auto.
    + destruct pi; injection Hd as <-; split.
      * intros Hf. right. auto.
      * intros [(v & Hv & _) | (_ & Hf)]; [discriminate | exact Hf].
      * discriminate.
      * intros [(v & Hv & _) | (Hp & _)]; discriminate.
  - unfold _detect_raspberry_pi, rbind in Hpi.
    destruct (path_exists E "/proc/device-tree/model").
    + destruct (read_file E "/proc/device-tree/model") as [model|];
        [|discriminate].
      destruct (contains "Raspberry Pi" model) eqn:Hc.
      * injection Hpi as <-. split; [|reflexivity].
        intros _. left. split; [reflexivity|]. exists model. auto.
      * destruct (path_exists E "/etc/rpi-issue"); injection Hpi as <-; split.
        -- intros _. right. reflexivity.
        -- reflexivity.
        -- discriminate.
        -- intros [(_ & m & Hm & Hcm) | H]; [|discriminate].
           injection Hm as <-. congruence.
    + destruct (path_exists E "/etc/rpi-issue"); injection Hpi as <-; split.
      * intros _. right. reflexivity.
      * reflexivity.
      * discriminate.
      * intros [(H & _) | H]; discriminate.
Qed.

Lemma detector_flags_witness :
  exists d, __init__ Sample.pi_without_gpio = Ok d /\
            has_gpio d = false /\ has_bluetooth d = true /\
            has_audio d = true /\ has_display d = true /\
            is_raspberry_pi d = true.
Proof.
  eexists. split; [reflexivity|].
  pose proof (detector_flags Sample.pi_without_gpio _ eq_refl) as H.
  repeat split; reflexivity.
Defined.

End DetectorFlags.

Section DetectorSingleton.
Import Singleton.

(** Once [get_hardware_detector] has returned a detector, every later
    call returns that same detector, whatever the host has become in the
    meantime, and leaves the cache alone; a construction that raises
    leaves the cache empty, so that the next call probes again. *)
Theorem detector_is_probed_once (E : HardwareDetection.env) (c c' : cache)
  (d : HardwareDetection.HardwareDetector) :
  get_hardware_detector E c = (Ok d, c') ->
  c' = Some d /\
  (forall E', get_hardware_detector E' c' = (Ok d, c')) /\
  (c = None -> HardwareDetection.__init__ E = Ok d).
Proof.
  unfold get_hardware_detector, bind, get, lift, modify, ret.
  destruct c as [d0|].
  - intros H. injection H as <- <-.
    split; [reflexivity|]. split; [reflexivity | discriminate].
  - destruct (HardwareDetection.__init__ E) as [d0|e]; [|discriminate].
    intros H. injection H as <- <-.
    split; [reflexivity|]. split; reflexivity.
Qed.

Lemma detector_is_probed_once_witness :
  let r := get_hardware_detector Sample.pi_without_gpio None in
  exists d, fst r = Ok d /\
    get_hardware_detector Sample.unreadable_model (snd r) = (Ok d, snd r).
Proof.
  cbv zeta. eexists. split; [reflexivity|].
  destruct (detector_is_probed_once Sample.pi_without_gpio None _ _ eq_refl)
    as (_ & H & _).
  apply H.
Defined.

(** When the construction raises, nothing is cached. *)
Lemma failed_probe_is_not_cached (E : HardwareDetection.env) (e : exn) :
  HardwareDetection.__init__ E = Raise e ->
  get_hardware_detector E None = (Raise e, None).
Proof.
  intros H. unfold get_hardware_detector, bind, get, lift. rewrite H.
  reflexivity.
Qed.

End DetectorSingleton.

Lemma bind_Ok {S A B} (m : M S A) (k : A -> M S B) (s s' : S) (a : A) :
  m s = (Ok a, s') -> bind m k s = k a s'.
Proof. intros H. unfold bind. rewrite H. reflexivity. Qed.

Lemma bind_Raise {S A B} (m : M S A) (k : A -> M S B) (s s' : S) (e : exn) :
  m s = (Raise e, s') -> bind m k s = (Raise e, s').
Proof. intros H. unfold bind. rewrite H. reflexivity. Qed.

(** ** Traces that only grow *)

Section Grows.
Context {S X : Type} (io : S -> list X) (P : X -> Prop).

Lemma grows_ret {A} (a : A) : grows io P (@ret S A a).
Proof. intros s. exists []. cbn. rewrite app_nil_r. auto. Qed.

Lemma grows_raise {A} (e : exn) : grows io P (@raise S A e).
Proof. intros s. exists []. cbn. rewrite app_nil_r. auto. Qed.

Lemma grows_get : grows io P (@get S).
Proof. intros s. exists []. cbn. rewrite app_nil_r. auto. Qed.

Lemma grows_lift {A} (r : result A) : grows io P (@lift S A r).
Proof. intros s. exists []. cbn. rewrite app_nil_r. auto. Qed.

Lemma grows_modify (g : S -> S) :
  (forall s, exists l, io (g s) = io s ++ l /\ Forall P l) ->
  grows io P (modify g).
Proof. intros H s. apply H. Qed.

Lemma grows_bind {A B} (m : M S A) (k : A -> M S B) :
  grows io P m -> (forall a, grows io P (k a)) -> grows io P (bind m k).
Proof.
  intros Hm Hk s. unfold bind. destruct (Hm s) as (l & Hl & HP).
  destruct (m s) as [[a|e] s']; cbn [snd] in *.
  - destruct (Hk a s') as (l' & Hl' & HP').
    exists (l ++ l'). rewrite Hl', Hl, app_assoc. split; [reflexivity|].
    apply Forall_app. auto.
  - eauto.
Qed.

Lemma grows_try_except {A} (m : M S A) (h : exn -> M S A) :
  grows io P m -> (forall e, grows io P (h e)) -> grows io P (try_except m h).
Proof.
  intros Hm Hh s. unfold try_except. destruct (Hm s) as (l & Hl & HP).
  destruct (m s) as [[a|e] s']; cbn [snd] in *.
  - eauto.
  - destruct (Hh e s') as (l' & Hl' & HP').
    exists (l ++ l'). rewrite Hl', Hl, app_assoc. split; [reflexivity|].
    apply Forall_app. auto.
Qed.

Lemma grows_when (b : bool) (m : M S unit) :
  grows io P m -> grows io P (when b m).
Proof. intros Hm. destruct b; [exact Hm | apply grows_ret]. Qed.

End Grows.

Ltac grows_step :=
  first
    [ apply grows_ret | apply grows_raise | apply grows_get | apply grows_lift
    | apply grows_bind; [|intro]
    | apply grows_try_except; [|intro]
    | apply grows_when ].

(** ** More on the wearable session *)

Section Connection.
Import Wearable Lifecycle.

Lemma grows_emit (P : event -> Prop) (e : event) :
  P e -> grows io P (modify (emit e)).
Proof.
  intros H. apply grows_modify. intros s. exists [e]. split; [reflexivity|].
  constructor; auto.
Qed.

Lemma grows_setter (P : event -> Prop) (g : WearableDevice -> WearableDevice) :
  (forall s, io (g s) = io s) -> grows io P (modify g).
Proof.
  intros H. apply grows_modify. intros s. exists []. rewrite H, app_nil_r. auto.
Qed.

Lemma grows_sock_op (P : event -> Prop) (E : env) (e : event) :
  P e -> grows io P (sock_op E e).
Proof.
  intros H s. exists [e]. unfold sock_op.
  destruct (op_raises E s); cbn; split; auto.
Qed.

Lemma grows_socket_new (P : event -> Prop) (E : env) :
  (forall h, P (SocketNew h)) -> grows io P (socket_new E).
Proof.
  intros H s. unfold socket_new.
  destruct (bluetooth E) as [[]|].
  - destruct (fails E _); cbn; eexists; split; try reflexivity; auto.
  - cbn. eexists; split; try reflexivity; auto.
  - exists []. cbn. rewrite app_nil_r. auto.
Qed.

(** [_connect] adds to the trace only socket events and log lines that
    satisfy [P]. *)
Lemma grows__connect (P : event -> Prop) (E : env) :
  (forall lvl msg, msg <> "Error in wearable connection loop" -> P (Log lvl msg)) ->
  (forall h, P (SocketNew h)) ->
  (forall h mac c, P (SocketConnect h mac c)) ->
  (forall h t, P (SocketSetTimeout h t)) ->
  (forall h d, P (SocketSend h d)) ->
  (forall h n, P (SocketRecv h n)) ->
  (forall h, P (SocketClose h)) ->
  grows io P (_connect E).
Proof.
  intros Hlog Hnew Hcon Hto Hsend Hrecv Hclose.
  assert (Hl : forall lvl msg, msg <> "Error in wearable connection loop" ->
                               grows io P (log lvl msg))
    by (intros; apply grows_emit; auto).
  unfold _connect.
  apply grows_bind; [apply grows_get|intros s].
  destruct (wearable_mac s =? "").
  - apply grows_bind; [apply Hl; discriminate | intros _; apply grows_ret].
  - apply grows_try_except; [|intros e].
    + repeat first
        [ apply Hl; discriminate
        | apply grows_socket_new; assumption
        | apply grows_sock_op; auto
        | apply grows_setter; intros []; reflexivity
        | grows_step ].
    + apply grows_bind; [apply Hl; discriminate|intros _].
      apply grows_bind; [apply grows_get|intros s'].
      apply grows_bind; [|intros _].
      * destruct (socket s');
          repeat first
            [ apply grows_sock_op; auto
            | apply grows_setter; intros []; reflexivity
            | grows_step ].
      * repeat first [ apply grows_setter; intros []; reflexivity | grows_step ].
Qed.

Lemma _connect_safe (E : env) : safe (_connect E).
Proof.
  unfold _connect, log. apply safe_bind; [safe_step|intros s].
  destruct (wearable_mac s =? ""); [repeat safe_step|].
  apply safe_try_except. intros e.
  apply safe_bind; [safe_step|intros _].
  apply safe_bind; [safe_step|intros s'].
  apply safe_bind; [destruct (socket s'); repeat safe_step|intros _].
  repeat safe_step.
Qed.

(** A turn of the connection loop never raises, and it always ends with
    the five-second sleep: since [_connect] handles every exception
    itself, the error branch of the loop, with its ten-second sleep, is
    never taken. *)
Theorem loop_turn_sleeps_five (E : env) (s : WearableDevice) :
  fst (loop_body E s) = Ok tt /\
  exists l, io (snd (loop_body E s)) = io s ++ l ++ [Sleep 5] /\
            Forall calm l.
Proof.
  assert (Hw : exists l s',
             when (negb (connected s)) (_connect E;; ret tt) s = (Ok tt, s') /\
             io s' = io s ++ l /\ Forall calm l).
  { destruct (connected s); cbn [negb when].
    - exists [], s. rewrite app_nil_r. auto.
    - destruct (safe_Ok (_connect E) s (_connect_safe E)) as (b & Hb).
      assert (Hg : grows io calm (_connect E)).
      { apply grows__connect; try (intros; split; discriminate).
        intros lvl msg Hm. split; [discriminate|]. congruence. }
      destruct (Hg s) as (l & Hl & HP).
      exists l, (snd (_connect E s)).
      split; [|auto]. erewrite bind_Ok by exact Hb. reflexivity. }
  destruct Hw as (l & s' & Hw & Hl & HP).
  assert (Heq : loop_body E s = (Ok tt, emit (Sleep 5) s')).
  { unfold loop_body, try_except.
    erewrite bind_Ok by reflexivity.
    erewrite bind_Ok by exact Hw. reflexivity. }
  rewrite Heq. cbn [fst snd]. split; [reflexivity|]. exists l.
  unfold emit. cbn [io]. rewrite Hl, app_assoc. auto.
Qed.

Ltac session_cbv :=
  cbv [step start stop send_command _connect loop_body sock_op socket_new
       op_raises log do_ when bind ret get modify lift try_except raise
       set_connected set_socket set_connection_thread set_running emit
       fst snd wearable_mac connected socket connection_thread running io].

Ltac split_outcomes E :=
  repeat match goal with
    | |- context [fails E ?n] => destruct (fails E n); cbn
    | |- context [match json_dumps E ?v with _ => _ end] =>
        destruct (json_dumps E v); cbn
    end.

Lemma _connect_result (E : env) (s : WearableDevice) :
  let r := _connect E s in
  let s' := snd r in
  wearable_mac s' = wearable_mac s /\ running s' = running s /\
  connection_thread s' = connection_thread s /\
  ((fst r = Ok true /\ wearable_mac s <> "" /\ connected s' = true /\
    exists h, socket s' = Some h) \/
   (fst r = Ok false /\ wearable_mac s = "" /\
    connected s' = connected s /\ socket s' = socket s) \/
   (fst r = Ok false /\ wearable_mac s <> "" /\
    connected s' = false /\ socket s' = None)).
Proof.
  cbv zeta. destruct s as [m c so th r tr].
  session_cbv.
  destruct (m =? "") eqn:Hm; cbn.
  - apply String.eqb_eq in Hm. repeat split; auto. right. left. auto.
  - apply String.eqb_neq in Hm.
    destruct (bluetooth E) as [[]|]; cbn; split_outcomes E;
      try (destruct so; cbn; split_outcomes E);
      (split; [reflexivity|]); (split; [reflexivity|]);
      (split; [reflexivity|]);
      first [ left; repeat split; eauto; fail
            | right; right; repeat split; auto ].
Qed.

(** What [_connect] leaves behind.  It never raises, and it keeps the
    address, the [running] flag and the thread field.  When it answers
    [True] it leaves the session connected, with a socket; with an empty
    address it answers [False] and touches nothing; any other failure
    leaves the session disconnected and without a socket, the one it held
    or made having been dropped. *)
Theorem _connect_outcome (E : env) (s : WearableDevice) :
  let r := _connect E s in
  let s' := snd r in
  wearable_mac s' = wearable_mac s /\ running s' = running s /\
  connection_thread s' = connection_thread s /\
  ((fst r = Ok true /\ wearable_mac s <> "" /\ connected s' = true /\
    exists h, socket s' = Some h) \/
   (fst r = Ok false /\ wearable_mac s = "" /\
    connected s' = connected s /\ socket s' = socket s) \/
   (fst r = Ok false /\ wearable_mac s <> "" /\
    connected s' = false /\ socket s' = None)).
Proof.
  exact (_connect_result E s).
Qed.

(** The handshake.  When the socket can be made, connected, configured
    and written to, [_connect] succeeds whether or not a reply can be
    read: it performs the five socket operations of the handshake in
    order, the hello frame among them, and a failing [recv] only costs
    the log line about the response. *)
Theorem handshake_tolerates_missing_reply (E : env) (s : WearableDevice)
  (text : string) :
  wearable_mac s <> "" ->
  json_dumps E hello_msg = Ok text ->
  bluetooth E = Some MockBluetooth \/
  (bluetooth E = Some RealBluetooth /\
   forall t, List.length (io s) < t <= List.length (io s) + 4 ->
             fails E t = false) ->
  let h := S (List.length (io s)) in
  let s' := snd (_connect E s) in
  fst (_connect E s) = Ok true /\
  connected s' = true /\ socket s' = Some h /\
  exists reply,
    io s' =
      io s ++ [Log Info "Connecting to wearable"] ++
      handshake h (wearable_mac s) text ++ reply ++
      [Log Info "Connected to wearable device"] /\
    (reply = [] \/ reply = [Log Info "Wearable response"]).
Proof.
  intros Hmac Hjson Hworld. cbv zeta.
  destruct s as [m c so th r tr]. cbn [wearable_mac io] in *.
  apply String.eqb_neq in Hmac.
  assert (Hlen : forall l : list event,
             List.length (tr ++ l) = List.length tr + List.length l)
    by (intros; apply length_app).
  session_cbv. rewrite Hmac. cbn.
  destruct Hworld as [Hmock | (Hreal & Hok)].
  - rewrite Hmock. cbn. rewrite Hjson. cbn.
    rewrite Hlen. cbn [List.length]. rewrite Nat.add_1_r.
    repeat split. exists [Log Info "Wearable response"].
    rewrite <- !app_assoc. cbn. auto.
  - rewrite Hreal. cbn.
    repeat (rewrite <- ?app_assoc; cbn [app];
            rewrite Hok by (rewrite ?Hlen; cbn [List.length]; lia); cbn).
    rewrite Hjson. cbn.
    repeat (rewrite <- ?app_assoc; cbn [app];
            rewrite Hok by (rewrite ?Hlen; cbn [List.length]; lia); cbn).
    rewrite <- ?app_assoc; cbn [app].
    rewrite !Hlen. cbn [List.length]. rewrite !Nat.add_1_r.
    destruct (fails E _); cbn; repeat split.
    + exists []. rewrite <- ?app_assoc. cbn. auto.
    + exists [Log Info "Wearable response"]. rewrite <- ?app_assoc. cbn. auto.
Qed.

Lemma handshake_tolerates_missing_reply_witness :
  let E := Sample.real_bluetooth (fun t => Nat.eqb t 5) in
  let s' := snd (_connect E (__init__ "00:11:22:33:44:55")) in
  fst (_connect E (__init__ "00:11:22:33:44:55")) = Ok true /\
  connected s' = true /\ socket s' = Some 1.
Proof.
  destruct (handshake_tolerates_missing_reply
              (Sample.real_bluetooth (fun t => Nat.eqb t 5))
              (__init__ "00:11:22:33:44:55") "{cmd: hello}")
    as (H1 & H2 & H3 & _).
  - discriminate.
  - reflexivity.
  - right. split; [reflexivity|]. cbn. intros t Ht.
    destruct t as [|[|[|[|[|t]]]]]; try reflexivity; lia.
  - cbv zeta. repeat split; assumption.
Defined.

(** With the repository's mock as the Bluetooth module and an address
    configured, the session is connected after [start] and the first turn
    of the connection loop, and a command whose data serializes is then
    accepted: its frame is written to the mock socket and [True] comes
    back. *)
Theorem mock_session_accepts_commands (E : env) (mac command : string)
  (params : pyval) (hello text : string) :
  bluetooth E = Some MockBluetooth ->
  mac <> "" ->
  json_dumps E hello_msg = Ok hello ->
  json_dumps E (cmd_data command params) = Ok text ->
  let s := run E [CallStart; LoopTurn] (__init__ mac) in
  running s = true /\ connected s = true /\ socket s = Some 3 /\
  send_command E command params s =
    (Ok true, emit (SocketSend 3 (text ++ newline)) s).
Proof.
  intros Hmock Hmac Hhello Htext. cbv zeta.
  apply String.eqb_neq in Hmac.
  unfold run, __init__. session_cbv.
  rewrite Hmock. cbn. rewrite Hmac. cbn. rewrite Hhello. cbn.
  rewrite Htext. cbn. repeat split; reflexivity.
Qed.

Lemma mock_session_accepts_commands_witness :
  let E := Sample.mock_bluetooth in
  let s := run E [CallStart; LoopTurn] (__init__ "00:11:22:33:44:55") in
  fst (send_command E "vibrate" PNone s) = Ok true.
Proof.
  assert (Hne : "00:11:22:33:44:55" <> "") by discriminate.
  destruct (mock_session_accepts_commands Sample.mock_bluetooth
              "00:11:22:33:44:55" "vibrate" PNone
              "{cmd: hello}" "{cmd: vibrate}" eq_refl Hne eq_refl eq_refl)
    as (_ & _ & _ & H).
  cbv zeta. rewrite H. reflexivity.
Defined.

(** [stop] drops the socket and leaves [connected] as it is.  A session
    that was connected when it was stopped therefore stays in a state
    that nothing leaves: whatever is called afterwards, [start] included,
    and however many turns the loop takes, [connected] stays up, no
    socket is held or made, and every command is refused. *)
Theorem stopped_session_never_reconnects (E : env) (acts : list action)
  (s : WearableDevice) :
  connected s = true -> socket s = None ->
  let s' := run E acts s in
  connected s' = true /\ socket s' = None /\
  sockets_constructed s' = sockets_constructed s /\
  forall command params, fst (send_command E command params s') = Ok false.
Proof.
  revert s. induction acts as [|a acts IH]; intros s Hc Hs; cbv zeta.
  - cbn [run]. repeat split; auto.
    intros. rewrite send_command_refused by auto. reflexivity.
  - cbn [run].
    assert (Hstep : connected (step E a s) = true /\
                    socket (step E a s) = None /\
                    sockets_constructed (step E a s) = sockets_constructed s).
    { destruct s as [m c so th r tr]. cbn in Hc, Hs. subst c so.
      unfold sockets_constructed.
      destruct a; session_cbv.
      - destruct r; [|destruct (bluetooth E)]; cbn;
          rewrite ?filter_app, ?length_app; cbn; repeat split; lia.
      - destruct r; cbn; [destruct th; cbn|];
          rewrite ?filter_app, ?length_app; cbn; repeat split; lia.
      - cbn. rewrite ?filter_app, ?length_app; cbn; repeat split; lia.
      - cbn. rewrite ?filter_app, ?length_app; cbn; repeat split; lia. }
    destruct Hstep as (Hc' & Hs' & Hn').
    destruct (IH (step E a s) Hc' Hs') as (H1 & H2 & H3 & H4).
    rewrite <- Hn'. auto.
Qed.

Lemma stopped_session_never_reconnects_witness :
  let E := Sample.mock_bluetooth in
  let s := run E [CallStart; LoopTurn; CallStop] (__init__ "00:11:22:33:44:55") in
  let s' := run E [CallStart; LoopTurn; LoopTurn] s in
  connected s = true /\ socket s = None /\ running s' = true /\
  fst (send_command E "vibrate" PNone s') = Ok false.
Proof.
  cbv zeta.
  destruct (stopped_session_never_reconnects Sample.mock_bluetooth
              [CallStart; LoopTurn; LoopTurn]
              (run Sample.mock_bluetooth [CallStart; LoopTurn; CallStop]
                 (__init__ "00:11:22:33:44:55")) eq_refl eq_refl)
    as (_ & _ & _ & H).
  split; [reflexivity|]. split; [reflexivity|]. split; [reflexivity|].
  apply H.
Defined.

(** A turn of the loop, in one equation. *)
Lemma loop_body_eq (E : env) (s : WearableDevice) :
  loop_body E s =
  (Ok tt, emit (Sleep 5) (if connected s then s else snd (_connect E s))).
Proof.
  unfold loop_body, try_except.
  erewrite bind_Ok by reflexivity.
  destruct (connected s); cbn [negb when].
  - reflexivity.
  - destruct (safe_Ok (_connect E) s (_connect_safe E)) as (b & Hb).
    erewrite bind_Ok; [reflexivity|].
    erewrite bind_Ok by exact Hb. reflexivity.
Qed.

Lemma quiet_tail (f : event -> bool) (tr l : list event) :
  Forall (fun e => f e = false) l ->
  List.length (filter f (tr ++ l)) = List.length (filter f tr).
Proof.
  intros H. rewrite filter_app, length_app.
  assert (Hn : filter f l = []).
  { induction H as [|e l He _ IH]; cbn; [reflexivity|]. rewrite He. exact IH. }
  rewrite Hn. cbn. lia.
Qed.

Lemma grows_quiet_counts (m : W bool) (s : WearableDevice) :
  grows io quiet m ->
  threads_started (snd (m s)) = threads_started s /\
  threads_joined (snd (m s)) = threads_joined s.
Proof.
  intros Hg. destruct (Hg s) as (l & Hl & HP).
  unfold threads_started, threads_joined. rewrite Hl. split; apply quiet_tail.
  - eapply Forall_impl; [|exact HP]. intros e He. apply He.
  - eapply Forall_impl; [|exact HP]. intros e He. apply He.
Qed.

Lemma _connect_quiet (E : env) : grows io quiet (_connect E).
Proof. apply grows__connect; intros; split; reflexivity. Qed.

(** Threads are started and joined in turn: in every state that the
    session can reach, the connection threads started are one more than
    those joined while the manager is running on a thread, and as many
    otherwise.  So [start] never creates a second thread for a manager
    that is running, and [stop] joins the one there is. *)
Theorem threads_start_and_join_in_turn (E : env) (mac : string)
  (s : WearableDevice) :
  reachable E mac s ->
  threads_started s =
  threads_joined s + (if running s && connection_thread s then 1 else 0).
Proof.
  intros Hreach.
  assert (Hinv : threads_started s =
                 threads_joined s +
                 (if running s && connection_thread s then 1 else 0) /\
                 (bluetooth E = None -> connection_thread s = false) /\
                 (running s = true -> bluetooth E <> None ->
                  connection_thread s = true)).
  { induction Hreach as [|s a Hreach IH Hen].
    - cbn. repeat split; auto; discriminate.
    - destruct IH as (Hcount & Hnone & Hsome).
      destruct a; cbn [step enabled] in *.
      + (* start *)
        destruct s as [m c so th r tr].
        unfold threads_started, threads_joined in *. cbn in Hcount, Hnone, Hsome.
        session_cbv. destruct r; [|destruct (bluetooth E) eqn:Hbt]; cbn;
          rewrite ?filter_app, ?length_app; cbn.
        * split; [destruct th; cbn in *; lia | auto].
        * split; [destruct th; cbn in *; lia|].
          split; [discriminate | reflexivity].
        * rewrite (Hnone eq_refl) in *. cbn in *.
          split; [lia|]. split; [reflexivity|]. intros _ H. contradiction.
      + (* stop *)
        destruct s as [m c so th r tr].
        unfold threads_started, threads_joined in *. cbn in Hcount, Hnone, Hsome.
        session_cbv. destruct r; cbn; [|repeat split; auto; discriminate].
        destruct so; cbn; [destruct (match bluetooth E with
                                     | Some MockBluetooth => false
                                     | _ => fails E (List.length tr)
                                     end); cbn|];
          destruct th; cbn in *;
          rewrite ?filter_app, ?length_app; cbn;
          (split; [lia|]); split; auto; discriminate.
      + (* send_command *)
        assert (Hg : grows io quiet (send_command E command params)).
        { unfold send_command, log.
          apply grows_bind; [apply grows_get|intros s0].
          destruct (connected s0), (socket s0);
            repeat first
              [ apply grows_emit; split; reflexivity
              | apply grows_sock_op; split; reflexivity
              | apply grows_setter; intros []; reflexivity
              | grows_step ]. }
        destruct (grows_quiet_counts _ s Hg) as (-> & ->).
        assert (Hk : running (snd (send_command E command params s)) = running s /\
                     connection_thread (snd (send_command E command params s)) =
                     connection_thread s).
        { destruct s as [m c so th r tr]. session_cbv.
          destruct c, so; cbn; try (split; reflexivity);
            destruct (json_dumps E _); cbn; try (split; reflexivity);
            destruct (bluetooth E) as [[]|]; cbn; try (split; reflexivity);
            destruct (fails E _); split; reflexivity. }
        destruct Hk as (-> & ->). auto.
      + (* a turn of the loop *)
        rewrite loop_body_eq. cbn [snd].
        destruct (_connect_result E s) as (_ & Hr & Ht & _).
        destruct (grows_quiet_counts _ s (_connect_quiet E)) as (Hs1 & Hj1).
        unfold threads_started, threads_joined in *.
        remember (snd (_connect E s)) as s1 eqn:Hs1def. clear Hs1def.
        destruct (connected s); cbn [emit io running connection_thread];
          rewrite ?filter_app, ?length_app; cbn;
          rewrite ?Hs1, ?Hj1, ?Hr, ?Ht, ?Nat.add_0_r;
          repeat split; auto. }
  apply Hinv.
Qed.

Lemma threads_start_and_join_in_turn_witness :
  let s := run Sample.mock_bluetooth
             [CallStart; CallStart; LoopTurn; CallStop; CallStart]
             (__init__ "00:11:22:33:44:55") in
  threads_started s = 2 /\ threads_joined s = 1 /\ running s = true.
Proof.
  cbv zeta.
  pose proof (threads_start_and_join_in_turn Sample.mock_bluetooth
                "00:11:22:33:44:55"
                (run Sample.mock_bluetooth
                   [CallStart; CallStart; LoopTurn; CallStop; CallStart]
                   (__init__ "00:11:22:33:44:55"))) as H.
  assert (Hr : reachable Sample.mock_bluetooth "00:11:22:33:44:55"
                 (run Sample.mock_bluetooth
                    [CallStart; CallStart; LoopTurn; CallStop; CallStart]
                    (__init__ "00:11:22:33:44:55"))).
  { cbn [run]. repeat (apply reachable_step; [|reflexivity]).
    apply reachable_init. }
  specialize (H Hr).
  split; [|split; reflexivity].
  rewrite H. reflexivity.
Defined.

End Connection.

(** ** More on the speech capture loop *)

Section Recognition.
Import Speech Transcript.

(** An instance of [simulation_emits_five]: the application's callback
    returns and nobody stops the recognizer during nine turns. *)
Lemma simulation_emits_five_witness :
  let E := Sample.sound_callback in
  let r := _simulation_loop E 9 (Sample.simulated_recognizer E) in
  text_queue (snd r) =
    ["Help me"; "What was that noise"; "Turn on the lights"; "Call for help";
     "Help me"] /\
  callbacks (io (snd r)) =
    ["Help me"; "What was that noise"; "Turn on the lights"; "Call for help";
     "Help me"].
Proof.
  assert (H5 : 5 <= 9) by lia.
  destruct (simulation_emits_five Sample.sound_callback 9
              (Sample.simulated_recognizer Sample.sound_callback)
              (fun _ => eq_refl) (fun _ => eq_refl) eq_refl H5)
    as (_ & Hq & Hc).
  cbv zeta. split; assumption.
Defined.

Ltac speech_cbv :=
  cbv [recognition_cycle try_microphone with_microphone start stop deliver
       attempt read_running now log do_ when bind ret get modify raise lift
       try_except queue_put emit set_running set_listen_thread set_mic_source
       fst snd callback io text_queue running listen_thread mic_source
       enabled adjust_for_ambient_noise in_simulation sr_available
       calibration_succeeds].

(** One listen-and-recognize attempt never raises and never opens a
    device.  A recognized text is put in the queue, whatever the callback
    does afterwards, and handed to the callback when one is set; an
    unintelligible utterance, a service error or a failed listen leaves
    the queue as it was and calls nobody. *)
Theorem recognition_cycle_effect (E : env) (s : SpeechToText) :
  let s' := snd (recognition_cycle E s) in
  let heard :=
    match hears E (List.length (io s)) with
    | Recognized text => [text]
    | _ => []
    end in
  fst (recognition_cycle E s) = Ok tt /\
  text_queue s' = text_queue s ++ heard /\
  callbacks (io s') = callbacks (io s) ++ (if callback s then heard else []) /\
  tried s' = tried s /\ running s' = running s.
Proof.
  cbv zeta. destruct s as [en adj sim sr mics src th r q cb tr].
  unfold tried. speech_cbv.
  destruct (hears E (List.length tr)) as [|text| | |]; cbn;
    destruct cb; cbn;
    try (destruct (callback_raises E _); cbn);
    rewrite ?callbacks_app, ?probes_app; cbn; rewrite ?app_nil_r;
    repeat split; reflexivity.
Qed.

(** A candidate that cannot be used costs nothing but the attempt. *)
Lemma try_microphone_unusable (E : env) (fuel : nat) (i : Z) (s : SpeechToText) :
  works E i = false ->
  let s' := snd (try_microphone E fuel i s) in
  fst (try_microphone E fuel i s) = Ok NextCandidate /\
  tried s' = tried s ++ [i] /\
  text_queue s' = text_queue s /\
  callbacks (io s') = callbacks (io s) /\
  running s' = running s /\ listen_thread s' = listen_thread s.
Proof.
  unfold works. intros Hw. cbv zeta.
  destruct s as [en adj sim sr mics src th r q cb tr].
  unfold tried. speech_cbv.
  destruct (mic_opens E (Some i)); cbn in *.
  - rewrite Hw. cbn. destruct (mic_exits E (Some i)); cbn;
      rewrite ?callbacks_app, ?probes_app; cbn; rewrite ?app_nil_r;
      repeat split; reflexivity.
  - rewrite ?callbacks_app, ?probes_app; cbn; rewrite ?app_nil_r;
      repeat split; reflexivity.
Qed.

Lemma for_mic_index_unusable (E : env) (fuel : nat) (l : list Z) :
  (forall i, In i l -> works E i = false) ->
  forall s,
    let s' := snd (for_mic_index E fuel l s) in
    fst (for_mic_index E fuel l s) = Ok Returned /\
    tried s' = tried s ++ l /\
    text_queue s' = text_queue s /\
    callbacks (io s') = callbacks (io s) /\
    running s' = running s /\ listen_thread s' = listen_thread s /\
    last (io s') (Log Info "") =
      Log Error "Could not connect to any microphone".
Proof.
  induction l as [|i rest IH]; intros Hall s; cbv zeta.
  - destruct s as [en adj sim sr mics src th r q cb tr].
    unfold tried. cbn. rewrite callbacks_app, probes_app, last_last. cbn.
    rewrite !app_nil_r. repeat split; reflexivity.
  - cbn [for_mic_index].
    destruct (try_microphone_unusable E fuel i s (Hall i (or_introl eq_refl)))
      as (Hf & Ht & Hq & Hc & Hr & Hl).
    destruct (try_microphone E fuel i s) as [f s1] eqn:Htry.
    cbn [fst snd] in *. subst f.
    erewrite bind_Ok by exact Htry.
    destruct (IH (fun j Hj => Hall j (or_intror Hj)) s1)
      as (H1 & H2 & H3 & H4 & H5 & H6 & H7).
    rewrite H1, H2, H3, H4, H5, H6, H7, Ht, Hq, Hc, Hr, Hl, <- app_assoc.
    repeat split; reflexivity.
Qed.

(** When none of the eight candidates can be used, the loop tries them
    all, logs the failure as its last act and returns normally; it has
    put nothing in the queue, called nobody, and left the [running] flag
    and the thread field as they were. *)
Theorem no_usable_microphone (E : env) (fuel : nat) (s : SpeechToText) :
  SR_AVAILABLE E = true ->
  (forall i, In i mic_indices_to_try -> works E i = false) ->
  let s' := snd (_listen_loop E fuel s) in
  fst (_listen_loop E fuel s) = Ok Returned /\
  tried s' = tried s ++ [13; 14; 15; 16; 5; 4; 1; 0]%Z /\
  text_queue s' = text_queue s /\
  callbacks (io s') = callbacks (io s) /\
  running s' = running s /\ listen_thread s' = listen_thread s /\
  last (io s') (Log Info "") = Log Error "Could not connect to any microphone".
Proof.
  intros Hsr Hall. cbv zeta. unfold _listen_loop. rewrite Hsr. cbn [negb].
  apply (for_mic_index_unusable E fuel mic_indices_to_try Hall s).
Qed.

Lemma no_usable_microphone_witness :
  let E := Sample.no_microphone in
  let s' := snd (_listen_loop E 3 (Sample.recognizer E)) in
  fst (_listen_loop E 3 (Sample.recognizer E)) = Ok Returned /\
  tried s' = [13; 14; 15; 16; 5; 4; 1; 0]%Z /\ text_queue s' = [].
Proof.
  destruct (no_usable_microphone Sample.no_microphone 3
              (Sample.recognizer Sample.no_microphone) eq_refl
              (fun _ _ => eq_refl)) as (H1 & H2 & H3 & _).
  cbv zeta. repeat split; assumption.
Defined.

Lemma threads_started_app (tr l : list event) :
  List.length (filter is_ThreadStart (tr ++ l)) =
  List.length (filter is_ThreadStart tr) + List.length (filter is_ThreadStart l).
Proof. rewrite filter_app, length_app. reflexivity. Qed.

(** [start] on a recognizer that is not running never raises.  With the
    simulation flag set it starts the simulation thread, whatever the
    library and the preferences say, and opens no microphone.  On the
    real path, with the library present and speech enabled, it starts the
    listening thread when the calibration goes through (or is not asked
    for); when the calibration fails it starts nothing and takes
    [running] down again, so that [start] can be tried once more. *)
Theorem start_outcome (E : env) (s : SpeechToText) :
  running s = false ->
  let s' := snd (start E s) in
  fst (start E s) = Ok tt /\
  (in_simulation s = true ->
   running s' = true /\ listen_thread s' = Some SimulationLoop /\
   threads_started s' = threads_started s + 1 /\
   ~ In (MicOpen None) (skipn (List.length (io s)) (io s'))) /\
  (in_simulation s = false -> sr_available s = true -> enabled s = true ->
   if calibration_succeeds E s
   then running s' = true /\ listen_thread s' = Some ListenLoop /\
        threads_started s' = threads_started s + 1
   else running s' = false /\ listen_thread s' = listen_thread s /\
        threads_started s' = threads_started s).
Proof.
  intros Hrun. cbv zeta.
  destruct s as [en adj sim sr mics src th r q cb tr].
  cbn in Hrun. subst r. unfold threads_started. speech_cbv.
  destruct sim; cbn.
  - split; [reflexivity|]. split; [|discriminate].
    intros _. rewrite !threads_started_app. cbn.
    repeat split; try lia.
    rewrite <- !app_assoc, skipn_app, skipn_all, Nat.sub_diag. cbn.
    intros [H|[H|[H|[]]]]; discriminate.
  - destruct sr; cbn; [|split; [reflexivity|]; split; discriminate].
    destruct en; cbn; [|split; [reflexivity|]; split; discriminate].
    destruct adj; cbn.
    + destruct (mic_opens E None); cbn;
        [destruct (mic_calibrates E None); cbn;
         destruct (mic_exits E None); cbn|];
        (split; [reflexivity|]); (split; [discriminate|]); intros _ _ _;
        rewrite ?threads_started_app; cbn; repeat split; lia.
    + split; [reflexivity|]. split; [discriminate|]. intros _ _ _.
      rewrite ?threads_started_app; cbn; repeat split; lia.
Qed.

Lemma start_outcome_witness :
  let E := Sample.microphone_five in
  let s' := snd (start E (Sample.recognizer E)) in
  fst (start E (Sample.recognizer E)) = Ok tt /\
  running s' = false /\ listen_thread s' = None /\ threads_started s' = 0.
Proof.
  destruct (start_outcome Sample.microphone_five
              (Sample.recognizer Sample.microphone_five) eq_refl)
    as (H1 & _ & H2).
  specialize (H2 eq_refl eq_refl eq_refl). cbn in H2.
  cbv zeta. split; [exact H1 | exact H2].
Defined.


(** What the simulation loop delivers comes out of [get_text] in the
    same order. *)
Lemma delivered_phrases_are_read_in_order :
  let E := Sample.sound_callback in
  let s := snd (_simulation_loop E 9 (Sample.simulated_recognizer E)) in
  fst (get_texts 6 s) =
  Ok [Some "Help me"; Some "What was that noise"; Some "Turn on the lights";
      Some "Call for help"; Some "Help me"; None].
Proof. reflexivity. Qed.

(** [stop] never raises and leaves the recognizer not running.  On a
    recognizer that is not running it changes nothing and logs nothing;
    on a running one it forgets the microphone source and keeps the
    queue, the callback and the thread field.  A second [stop] in a row
    therefore does nothing at all. *)
Theorem recognizer_stop_contract (s : SpeechToText) :
  let s' := snd (stop s) in
  fst (stop s) = Ok tt /\ running s' = false /\
  (running s = false -> s' = s) /\
  (running s = true ->
   mic_source s' = None /\
   last (io s') (Log Info "") = Log Info "Speech to text stopped") /\
  text_queue s' = text_queue s /\ callback s' = callback s /\
  listen_thread s' = listen_thread s /\
  stop s' = (Ok tt, s').
Proof.
  cbv zeta. destruct s as [en adj sim sr mics src th r q cb tr].
  speech_cbv.
  destruct r, th, src; cbn; rewrite ?last_last;
    repeat split; try reflexivity; intros; try discriminate.
Qed.

Lemma recognizer_stop_contract_witness :
  let s := Sample.simulated_recognizer Sample.sound_callback in
  snd (stop s) = s.
Proof.
  exact (proj1 (proj2 (proj2 (recognizer_stop_contract
           (Sample.simulated_recognizer Sample.sound_callback)))) eq_refl).
Defined.

End Recognition.

(** ** More on the application object *)

Section Startup.
Import Main.












End Startup.

(** ** Construction of the application *)

Section MonadInversion.
Context {S : Type}.

Lemma bind_Ok_inv {A B} (m : M S A) (k : A -> M S B) (s s2 : S) (b : B) :
  bind m k s = (Ok b, s2) ->
  exists a s1, m s = (Ok a, s1) /\ k a s1 = (Ok b, s2).
Proof.
  unfold bind. destruct (m s) as [[a|e] s1]; [eauto | discriminate].
Qed.

Lemma modify_inv (g : S -> S) (s s1 : S) (a : unit) :
  modify g s = (Ok a, s1) -> s1 = g s.
Proof. unfold modify. intros H. injection H as _ <-. reflexivity. Qed.

Lemma when_modify_inv (b : bool) (g : S -> S) (s s1 : S) (a : unit) :
  when b (modify g) s = (Ok a, s1) -> s1 = if b then g s else s.
Proof.
  destruct b; cbn; intros H; injection H as _ <-; reflexivity.
Qed.

Lemma lift_inv {A} (r : result A) (s s1 : S) (a : A) :
  lift r s = (Ok a, s1) -> r = Ok a /\ s1 = s.
Proof. unfold lift. intros H. injection H as -> <-. auto. Qed.

Lemma get_inv (s s1 a : S) : get s = (Ok a, s1) -> a = s /\ s1 = s.
Proof. unfold get. intros H. injection H as <- <-. auto. Qed.

Lemma try_except_Ok_inv {A} (m : M S A) (h : exn -> M S A) (s s2 : S) (a : A) :
  try_except m h s = (Ok a, s2) ->
  m s = (Ok a, s2) \/
  exists e s1, m s = (Raise e, s1) /\ h e s1 = (Ok a, s2).
Proof.
  unfold try_except. destruct (m s) as [[a'|e] s1]; intros H.
  - left. exact H.
  - right. eauto.
Qed.

End MonadInversion.

Section Construction.
Import Main App.

Lemma construct_inv {A} (c : component) (r : result A) (p p1 : process) (a : A) :
  construct c r p = (Ok a, p1) -> r = Ok a /\ p1 = write (Constructed c) p.
Proof.
  unfold construct, bind, modify, lift. intros H. injection H as -> <-. auto.
Qed.

Lemma register_inv (W : world) (sig : signum) (p p1 : process) (a : unit) :
  register W sig p = (Ok a, p1) ->
  signal_signal W sig = Ok a /\ p1 = write (SignalRegistered sig) p.
Proof.
  unfold register, bind, modify, lift. intros H. injection H as -> <-. auto.
Qed.

(** The handler of the constructor ends in [raise]: it never returns. *)
Lemma handler_never_returns (W : world) (e : exn) (p p1 : process) (a : unit) :
  (say Error "Error initializing SenseBridge" ;;
   on_self (stop (runtime W)) ;;
   raise e) p <> (Ok a, p1).
Proof.
  unfold bind at 1, say, modify. unfold bind, raise.
  destruct (on_self _ _) as [[x|e'] p2]; discriminate.
Qed.

Lemma get_detector_inv (W : world) (p p1 : process)
  (d : HardwareDetection.HardwareDetector) :
  get_detector W p = (Ok d, p1) ->
  p1 = set_detector_cache (Some d) p /\
  (detector_cache p = Some d \/
   detector_cache p = None /\
   HardwareDetection.__init__ (hardware W) = Ok d).
Proof.
  unfold get_detector, Singleton.get_hardware_detector, bind, get, lift,
    modify, ret.
  destruct p as [c s0 h0 sim0 j]. cbn.
  destruct c as [d0|].
  - intros H. injection H as <- <-. auto.
  - destruct (HardwareDetection.__init__ (hardware W)) as [d0|e];
      [|discriminate].
    intros H. injection H as <- <-. auto.
Qed.

Ltac peel H a q H1 :=
  apply bind_Ok_inv in H; destruct H as (a & q & H1 & H).

Ltac written H1 q :=
  first [ apply modify_inv in H1 | apply when_modify_inv in H1 ]; subst q.

Lemma constructed_app (l1 l2 : list entry) :
  constructed (l1 ++ l2) = constructed l1 ++ constructed l2.
Proof.
  induction l1 as [|x l1 IH]; cbn; [reflexivity|].
  destruct x; cbn; rewrite ?IH; reflexivity.
Qed.

(** What [_initialize_components] has built when it returns. *)
Lemma components_result (W : world) (d : HardwareDetection.HardwareDetector)
  (p p' : process) (u : unit) :
  _initialize_components W d p = (Ok u, p') ->
  exists mac ml,
    new_DeviceController W = Ok tt /\
    new_NotificationManager W = Ok tt /\
    new_WearableDevice W = Ok mac /\
    create_app W (negb (headless p)) = Ok ml /\
    detector_cache p' = detector_cache p /\
    headless p' = headless p /\ simulation p' = simulation p /\
    notification_manager (self p') = true /\
    device_controller (self p') = true /\
    wearable (self p') = Some (Wearable.__init__ mac) /\
    app (self p') = Some ml /\
    is_some (speech_to_text (self p')) = HardwareDetection.has_audio d /\
    sound_recognition (self p') = HardwareDetection.has_audio d /\
    is_some (simulator (self p')) = simulation p && SIMULATOR_AVAILABLE W /\
    calls (self p') = calls (self p) /\
    constructed (journal p') =
      constructed (journal p) ++
      [DeviceController; NotificationManager; WearableDevice] ++
      (if HardwareDetection.has_audio d
       then [SpeechToText; SoundRecognition] else []) ++
      [App] ++
      (if simulation p && SIMULATOR_AVAILABLE W then [SimulatorUI] else []).
Proof.
  unfold _initialize_components, say, assign. intros H.
  peel H a1 q1 H1. apply construct_inv in H1 as (Hdc & ->). destruct a1.
  peel H a2 q2 H2. written H2 q2.
  peel H a3 q3 H3. apply construct_inv in H3 as (Hnm & ->). destruct a3.
  peel H a4 q4 H4. written H4 q4.
  peel H mac q5 H5. apply construct_inv in H5 as (Hmac & ->).
  peel H a6 q6 H6. written H6 q6.
  peel H a7 q7 H7. peel H a8 q8 H8.
  peel H p0 q9 H9. apply get_inv in H9 as (-> & ->).
  peel H ml q10 H10. apply construct_inv in H10 as (Happ & ->).
  peel H a11 q11 H11. written H11 q11.
  exists mac, ml.
  destruct p as [c s0 h0 sim0 j]. destruct s0 as [nm sr sp dc w ap si cs].
  destruct (HardwareDetection.has_audio d).
  - peel H7 pr q12 H12. apply construct_inv in H12 as (Hsp & ->).
    destruct pr as [[[en adj] insim] mics]. written H7 q7.
    peel H8 a13 q13 H13. apply construct_inv in H13 as (Hsr & ->).
    written H8 q8.
    cbn in Happ |- *.
    cbn [simulation headless write set_self] in H.
    destruct (sim0 && SIMULATOR_AVAILABLE W).
    + peel H a14 q14 H14. written H14 q14.
      peel H a15 q15 H15. written H15 q15. written H p'.
      cbn. rewrite !constructed_app. cbn. rewrite ?app_nil_r, <- ?app_assoc.
      cbn. repeat split; auto.
    + written H p'. cbn. rewrite !constructed_app. cbn.
      rewrite ?app_nil_r, <- ?app_assoc. cbn. repeat split; auto.
  - peel H7 a12 q12 H12. written H12 q12. written H7 q7.
    peel H8 a13 q13 H13. written H13 q13. written H8 q8.
    cbn in Happ |- *.
    cbn [simulation headless write set_self] in H.
    destruct (sim0 && SIMULATOR_AVAILABLE W).
    + peel H a14 q14 H14. written H14 q14.
      peel H a15 q15 H15. written H15 q15. written H p'.
      cbn. rewrite !constructed_app. cbn. rewrite ?app_nil_r, <- ?app_assoc.
      cbn. repeat split; auto.
    + written H p'. cbn. rewrite !constructed_app. cbn.
      rewrite ?app_nil_r, <- ?app_assoc. cbn. repeat split; auto.
Qed.

(** What a construction that returns has built. *)
Lemma construction_result (W : world) (h sim : bool) (p : process) :
  fst (__init__ W h sim p) = Ok tt ->
  let p' := snd (__init__ W h sim p) in
  exists d mac ml,
    detector_cache p' = Some d /\
    (detector_cache p = Some d \/
     detector_cache p = None /\
     HardwareDetection.__init__ (hardware W) = Ok d) /\
    headless p' = h || negb (HardwareDetection.has_display d) /\
    simulation p' = sim || negb (HardwareDetection.is_raspberry_pi d) /\
    new_WearableDevice W = Ok mac /\
    create_app W (negb (headless p')) = Ok ml /\
    notification_manager (self p') = true /\
    device_controller (self p') = true /\
    wearable (self p') = Some (Wearable.__init__ mac) /\
    app (self p') = Some ml /\
    is_some (speech_to_text (self p')) = HardwareDetection.has_audio d /\
    sound_recognition (self p') = HardwareDetection.has_audio d /\
    is_some (simulator (self p')) = simulation p' && SIMULATOR_AVAILABLE W /\
    calls (self p') = [] /\
    constructed (journal p') =
      constructed (journal p) ++
      [DeviceController; NotificationManager; WearableDevice] ++
      (if HardwareDetection.has_audio d
       then [SpeechToText; SoundRecognition] else []) ++
      [App] ++
      (if simulation p' && SIMULATOR_AVAILABLE W then [SimulatorUI] else []).
Proof.
  cbv zeta. destruct (__init__ W h sim p) as [r p'] eqn:H.
  cbn [fst snd]. intros ->.
  unfold __init__, say in H. cbv zeta in H.
  peel H a1 q1 H1. written H1 q1.
  peel H d q2 H2. apply get_detector_inv in H2 as (-> & Hcache).
  peel H a3 q3 H3. written H3 q3.
  peel H a4 q4 H4. written H4 q4.
  peel H a5 q5 H5. written H5 q5.
  peel H a6 q6 H6. written H6 q6.
  peel H a7 q7 H7. written H7 q7.
  peel H a8 q8 H8. apply lift_inv in H8 as (Hcfg & ->).
  peel H a9 q9 H9. written H9 q9.
  apply try_except_Ok_inv in H as [H | (e & p1 & _ & H)];
    [|exfalso; exact (handler_never_returns W e p1 p' tt H)].
  peel H a10 q10 H10. apply components_result in H10.
  destruct H10 as (mac & ml & _ & _ & Hmac & Happ & Hc & Hh & Hs & Hrest).
  peel H a11 q11 H11. apply register_inv in H11 as (_ & ->).
  peel H a12 q12 H12. apply register_inv in H12 as (_ & ->).
  written H p'.
  exists d, mac, ml.
  destruct p as [c s0 h0 sim0 j].
  destruct Hrest as (R1 & R2 & R3 & R4 & R5 & R6 & R7 & R8 & R9).
  cbn [detector_cache self headless simulation journal write].
  rewrite ?constructed_app.
  rewrite Hc, Hh, Hs, R9.
  destruct d as [pf pi gp au bt dsp].
  cbn [HardwareDetection.has_display HardwareDetection.is_raspberry_pi
       HardwareDetection.has_audio] in *.
  destruct dsp, h, sim, pi; cbn in *;
    rewrite ?constructed_app; cbn; rewrite ?app_nil_r;
    repeat (split; [first [assumption | reflexivity] |]);
    first [assumption | reflexivity].
Qed.

(** A construction that returns has obtained the detector (from the
    cache, or by probing once), has built the device controller, the
    notification manager, the wearable session and the GUI, and has built
    the recognizer and the sound recognizer exactly when the host has
    audio and the simulator exactly when simulation is on and its module
    is there.  A host without display is run headless, a host that is not
    a Raspberry Pi in simulation, whatever was asked for.  No component
    has been called yet. *)
Theorem construction_outcome (W : world) (h sim : bool) (p : process) :
  fst (__init__ W h sim p) = Ok tt ->
  let p' := snd (__init__ W h sim p) in
  exists d mac ml,
    detector_cache p' = Some d /\
    (detector_cache p = Some d \/
     detector_cache p = None /\
     HardwareDetection.__init__ (hardware W) = Ok d) /\
    headless p' = h || negb (HardwareDetection.has_display d) /\
    simulation p' = sim || negb (HardwareDetection.is_raspberry_pi d) /\
    new_WearableDevice W = Ok mac /\
    create_app W (negb (headless p')) = Ok ml /\
    notification_manager (self p') = true /\
    device_controller (self p') = true /\
    wearable (self p') = Some (Wearable.__init__ mac) /\
    app (self p') = Some ml /\
    is_some (speech_to_text (self p')) = HardwareDetection.has_audio d /\
    sound_recognition (self p') = HardwareDetection.has_audio d /\
    is_some (simulator (self p')) = simulation p' && SIMULATOR_AVAILABLE W /\
    calls (self p') = [] /\
    constructed (journal p') =
      constructed (journal p) ++
      [DeviceController; NotificationManager; WearableDevice] ++
      (if HardwareDetection.has_audio d
       then [SpeechToText; SoundRecognition] else []) ++
      [App] ++
      (if simulation p' && SIMULATOR_AVAILABLE W then [SimulatorUI] else []).
Proof. exact (construction_result W h sim p). Qed.

Lemma construction_outcome_witness :
  let p' := snd (__init__ Sample.desktop false false boot) in
  headless p' = true /\ simulation p' = true /\
  speech_to_text (self p') = None /\ sound_recognition (self p') = false /\
  constructed (journal p') =
    [DeviceController; NotificationManager; WearableDevice; App; SimulatorUI].
Proof.
  destruct (construction_outcome Sample.desktop false false boot eq_refl)
    as (d & mac & ml & _).
  cbv zeta. repeat split; reflexivity.
Defined.



(** When the wearable's constructor raises, after the device controller
    and the notification manager have been built, the constructor of the
    application raises the same exception, having first run [stop] on the
    half-built object: the notification manager is stopped and the device
    controller cleaned up, and nothing else is called, the other
    components not existing. *)
Theorem wearable_constructor_failure (W : world) (h sim : bool) (e : exn)
  (d : HardwareDetection.HardwareDetector) :
  HardwareDetection.__init__ (hardware W) = Ok d ->
  new_Config W = Ok tt ->
  new_DeviceController W = Ok tt ->
  new_NotificationManager W = Ok tt ->
  new_WearableDevice W = Raise e ->
  (forall t, collaborator_raises (runtime W) t = false) ->
  let p' := snd (__init__ W h sim boot) in
  fst (__init__ W h sim boot) = Raise e /\
  calls (self p') =
    [LogInfo "Stopping SenseBridge..."; Stop NotificationManager; Cleanup;
     LogInfo "SenseBridge stopped"] /\
  wearable (self p') = None /\
  constructed (journal p') =
    [DeviceController; NotificationManager; WearableDevice] /\
  detector_cache p' = Some d.
Proof.
  intros Hd Hcfg Hdc Hnm Hw Hcalm. cbv zeta.
  unfold __init__, _initialize_components, get_detector,
    Singleton.get_hardware_detector, construct, say, assign, on_self, boot.
  cbv [bind get lift modify ret when try_except raise fst snd
       detector_cache self headless simulation journal
       write set_detector_cache set_self set_headless set_simulation].
  rewrite Hd. cbv beta iota.
  destruct d as [pf pi gp au bt dsp]. cbn.
  destruct dsp, h, sim, pi; cbn; rewrite Hcfg; cbn; rewrite Hdc; cbn;
    rewrite Hnm; cbn; rewrite Hw; cbn;
    unfold bind, collaborator, note, modify;
    repeat (rewrite Hcalm; cbn);
    repeat split; reflexivity.
Qed.

Lemma wearable_constructor_failure_witness :
  let r := __init__ Sample.desktop_without_wearable_config false false boot in
  fst r = Raise TypeError /\
  stopped (calls (self (snd r))) = [NotificationManager].
Proof.
  destruct (wearable_constructor_failure Sample.desktop_without_wearable_config
              false false TypeError _ eq_refl eq_refl eq_refl eq_refl eq_refl
              (fun _ => eq_refl)) as (H1 & H2 & _).
  cbv zeta. split; [exact H1|]. rewrite H2. reflexivity.
Defined.

End Construction.

(** ** The mock GPIO module *)

Section Pins.
Import MockGPIO.

Lemma dict_get_set_same {V} (k : Z) (v : V) (d : dict V) :
  dict_get k (dict_set k v d) = Some v.
Proof.
  induction d as [|[k' v'] d IH]; cbn.
  - rewrite Z.eqb_refl. reflexivity.
  - destruct (k' =? k)%Z eqn:Hk; cbn.
    + rewrite Z.eqb_refl. reflexivity.
    + rewrite Hk. exact IH.
Qed.

Lemma dict_get_set_other {V} (k k0 : Z) (v : V) (d : dict V) :
  k0 <> k -> dict_get k0 (dict_set k v d) = dict_get k0 d.
Proof.
  intros Hne. induction d as [|[k' v'] d IH]; cbn.
  - destruct (k =? k0)%Z eqn:Hk; [|reflexivity].
    apply Z.eqb_eq in Hk. congruence.
  - destruct (k' =? k)%Z eqn:Hk; cbn.
    + apply Z.eqb_eq in Hk. subst k'.
      destruct (k =? k0)%Z eqn:Hk0; [|reflexivity].
      apply Z.eqb_eq in Hk0. congruence.
    + destruct (k' =? k0)%Z; [reflexivity | exact IH].
Qed.

(** Reading back what was written.  [input] returns the value last given
    to that pin by [output], whatever it is; writing one pin leaves the
    others as they read before; a pin set up as an output reads as its
    initial value, [False] when none is given; setting a pin up as an
    input changes no reading; and a pin never written reads [False]. *)
Theorem pin_values_round_trip (g : gpio) (p q : Z) (v : pyval) :
  input p (output p v g) = v /\
  (q <> p -> input q (output p v g) = input q g) /\
  input p (setup p OUT PNone g) = PBool false /\
  (v <> PNone -> input p (setup p OUT v g) = v) /\
  input q (setup p IN v g) = input q g /\
  input p fresh = PBool false.
Proof.
  unfold input, output, setup. cbn.
  rewrite !dict_get_set_same.
  split; [reflexivity|]. split.
  - intros Hne. rewrite dict_get_set_other by exact Hne. reflexivity.
  - split; [reflexivity|]. split; [|split; reflexivity].
    intros Hv. destruct v; try reflexivity. contradiction.
Qed.

Lemma pin_values_round_trip_witness :
  input 5 (output 17 (PBool true) fresh) = input 5 fresh /\
  input 17 (setup 17 OUT (PBool true) fresh) = PBool true.
Proof.
  destruct (pin_values_round_trip fresh 17 5 (PBool true))
    as (_ & H1 & _ & H2 & _).
  split; [apply H1 | apply H2]; discriminate.
Defined.

Lemma nth_error_update_at (i j : nat) (f : PWM -> PWM) (l : list PWM) :
  nth_error (update_at i f l) j =
  if Nat.eqb i j then option_map f (nth_error l j) else nth_error l j.
Proof.
  revert i j. induction l as [|x l IH]; intros [|i] [|j]; cbn; auto.
  destruct (Nat.eqb i j); reflexivity.
Qed.

Lemma update_at_length (i : nat) (f : PWM -> PWM) (l : list PWM) :
  List.length (update_at i f l) = List.length l.
Proof.
  revert i. induction l as [|x l IH]; intros [|i]; cbn; auto.
Qed.

Lemma update_at_last (f : PWM -> PWM) (l : list PWM) (o : PWM) :
  update_at (List.length l) f (l ++ [o]) = l ++ [f o].
Proof.
  induction l as [|x l IH]; cbn; [reflexivity|]. rewrite IH. reflexivity.
Qed.

Lemma stop_all_running (ids : list nat) (l : list PWM) (j : nat) :
  option_map running (nth_error (stop_all ids l) j) =
  option_map (fun o => running o && negb (existsb (fun i => Nat.eqb i j) ids))
             (nth_error l j).
Proof.
  revert l. induction ids as [|i ids IH]; intros l; cbn.
  - destruct (nth_error l j); cbn; [rewrite andb_true_r|]; reflexivity.
  - rewrite IH, nth_error_update_at.
    destruct (Nat.eqb i j); cbn.
    + destruct (nth_error l j); cbn; [|reflexivity].
      rewrite andb_false_r. reflexivity.
    + reflexivity.
Qed.

Lemma existsb_values (i : nat) (d : dict nat) :
  existsb (fun j => Nat.eqb j i) (map snd d) =
  existsb (fun kv => Nat.eqb (snd kv) i) d.
Proof.
  induction d as [|kv d IH]; cbn; [reflexivity|]. rewrite IH. reflexivity.
Qed.

Lemma cleanup_running (g : gpio) (i : nat) :
  is_running i (cleanup g) = is_running i g && negb (registered i g).
Proof.
  unfold is_running, registered, cleanup. cbn [objects].
  pose proof (stop_all_running (map snd (_pwm_instances g)) (objects g) i) as H.
  rewrite existsb_values in H.
  destruct (nth_error (stop_all _ _) i), (nth_error (objects g) i);
    cbn in H; try discriminate; [|reflexivity].
  injection H as ->. reflexivity.
Qed.

(** After [cleanup] every pin reads [False] and no PWM is registered; a
    PWM object is running afterwards exactly when it was running before
    and was not the one registered for any pin.  So [cleanup] stops the
    objects that [_pwm_instances] holds, which are the ones last created
    for their pins, and no others. *)
Theorem cleanup_effect (g : gpio) (p : Z) (i : nat) :
  input p (cleanup g) = PBool false /\
  _pwm_instances (cleanup g) = [] /\
  _pin_modes (cleanup g) = [] /\
  is_running i (cleanup g) = is_running i g && negb (registered i g).
Proof.
  split; [reflexivity|]. split; [reflexivity|]. split; [reflexivity|].
  apply cleanup_running.
Qed.

(** Whatever is registered in [_pwm_instances] is an object that exists:
    this holds when the module is loaded, and every function of the
    module and every method of a PWM keeps it so. *)
Theorem known_kept (g : gpio) (p : Z) (m : string) (v : pyval) (b : bool)
  (i : nat) (f : PWM -> PWM) :
  known fresh /\
  (known g ->
   known (setup p m v g) /\ known (output p v g) /\ known (cleanup g) /\
   known (add_event_detect p b v g) /\ known (remove_event_detect p g) /\
   known (on_object i f g) /\ known (snd (PWM_new p v g))).
Proof.
  split; [constructor|]. intros H. unfold known in *.
  repeat split; cbn; try exact H; try constructor.
  - rewrite update_at_length. exact H.
  - rewrite length_app. cbn [List.length].
    assert (Hw : Forall (fun kv : Z * nat => snd kv < List.length (objects g) + 1)
                   (_pwm_instances g)).
    { eapply Forall_impl; [|exact H]. cbn. intros; lia. }
    clear H. induction Hw as [|[k x] d Hx Hd IH]; cbn.
    + constructor; [cbn; lia | constructor].
    + destruct (k =? p)%Z.
      * constructor; [cbn; lia | exact Hd].
      * constructor; [exact Hx | exact IH].
Qed.

Lemma known_kept_witness :
  known (snd (PWM_new 18 (PInt 100) (output 17 (PBool true) fresh))).
Proof.
  assert (H : known (output 17 (PBool true) fresh)) by constructor.
  exact (proj2 (proj2 (proj2 (proj2 (proj2 (proj2
    (proj2 (known_kept (output 17 (PBool true) fresh) 18 "" (PInt 100)
              false 0 (fun o => o)) H))))))).
Defined.

Lemma registered_after_set (p : Z) (n : nat) (d : dict nat) :
  existsb (fun kv => Nat.eqb (snd kv) n) (dict_set p n d) = true.
Proof.
  induction d as [|[k v] d IH]; cbn.
  - rewrite Nat.eqb_refl. reflexivity.
  - destruct (k =? p)%Z; cbn.
    + rewrite Nat.eqb_refl. reflexivity.
    + rewrite IH. apply orb_true_r.
Qed.

Lemma replaced_is_forgotten (p : Z) (n : nat) (d : dict nat) :
  Forall (fun kv => snd kv < n) d ->
  existsb (fun kv => Nat.eqb (snd kv) n)
    (dict_set p (n + 1) (dict_set p n d)) = false.
Proof.
  assert (Hn : Nat.eqb (n + 1) n = false) by (apply Nat.eqb_neq; lia).
  induction 1 as [|[k v] d Hv Hd IH]; cbn.
  - rewrite Z.eqb_refl. cbn. rewrite Hn. reflexivity.
  - destruct (k =? p)%Z eqn:Hk; cbn.
    + rewrite Z.eqb_refl. cbn. rewrite Hn. cbn.
      clear IH. induction Hd as [|[k' v'] d' Hv' Hd' IH']; cbn; [reflexivity|].
      rewrite IH'. cbn in Hv'.
      replace (Nat.eqb v' n) with false
        by (symmetry; apply Nat.eqb_neq; lia).
      reflexivity.
    + rewrite Hk. cbn. rewrite IH. cbn in Hv.
      replace (Nat.eqb v n) with false
        by (symmetry; apply Nat.eqb_neq; lia).
      reflexivity.
Qed.

(** A PWM that has been replaced by a second one on the same pin is no
    longer known to the module: when both have been started, [cleanup]
    stops the second and leaves the first running. *)
Theorem replaced_pwm_survives_cleanup (g : gpio) (p : Z)
  (f1 f2 duty1 duty2 : pyval) :
  known g ->
  let first := fst (PWM_new p f1 g) in
  let g2 := pwm_start first duty1 (snd (PWM_new p f1 g)) in
  let second := fst (PWM_new p f2 g2) in
  let g4 := cleanup (pwm_start second duty2 (snd (PWM_new p f2 g2))) in
  first <> second /\
  is_running first g4 = true /\ is_running second g4 = false.
Proof.
  intros Hk. unfold pwm_start, on_object.
  cbn [PWM_new objects _pwm_instances fst snd].
  rewrite update_at_last. cbn [pin frequency duty_cycle running].
  rewrite update_at_last. cbn [pin frequency duty_cycle running].
  rewrite !cleanup_running.
  unfold is_running, registered. cbn [objects _pwm_instances].
  rewrite !length_app. cbn [List.length].
  set (n := List.length (objects g)).
  split; [lia|]. split.
  - rewrite replaced_is_forgotten by exact Hk.
    rewrite nth_error_app1 by (rewrite length_app; cbn; lia).
    rewrite nth_error_app2 by (fold n; lia).
    fold n. rewrite Nat.sub_diag. reflexivity.
  - rewrite registered_after_set. apply andb_false_r.
Qed.

Lemma replaced_pwm_survives_cleanup_witness :
  known fresh /\
  is_running 0 (cleanup (pwm_start 1 (PInt 50)
     (snd (PWM_new 18 (PInt 200)
        (pwm_start 0 (PInt 50) (snd (PWM_new 18 (PInt 100) fresh))))))) = true.
Proof.
  split; [constructor|].
  exact (proj1 (proj2 (replaced_pwm_survives_cleanup fresh 18 (PInt 100)
           (PInt 200) (PInt 50) (PInt 50) (Forall_nil _)))).
Defined.

End Pins.
